(** * A shallow embedding of [build_gradle_migrator.py]

    The section parser and merger of [BuildGradleMigrator]: the Section
    Scanner ([identify_sections]), the meaningful-line filter, the two merge
    steps, the structural validator, the summary and [run_migration].

    Text is modelled as Rocq [string]s over ASCII characters.  A file is the
    text Python reads from it in text mode (after universal-newline
    translation); [read_gradle_file] splits it with [readlines] and a write
    stores the concatenation of the lines ([file.writelines]). *)

From Stdlib Require Import Ascii String ZArith Lia.
From stdpp Require Import base gmap strings list pretty.

Open Scope string_scope.
Open Scope list_scope.
Open Scope nat_scope.

(* ------------------------------------------------------------------ *)
(** ** Python string primitives *)

Module Py.

(** [str.isspace] on ASCII: \t \n \v \f \r, \x1c-\x1f and space; this is
    also the class of [\s] in a [str] regular expression. *)
Definition isspace (c : ascii) : bool :=
  let n := nat_of_ascii c in
  ((9 <=? n) && (n <=? 13)) || ((28 <=? n) && (n <=? 32)).

Fixpoint lstrip_l (cs : list ascii) : list ascii :=
  match cs with
  | c :: cs' => if isspace c then lstrip_l cs' else cs
  | [] => []
  end.

(** [str.strip()] *)
Definition strip (s : string) : string :=
  string_of_list_ascii
    (rev (lstrip_l (rev (lstrip_l (list_ascii_of_string s))))).

Fixpoint prefix_l (p s : list ascii) : bool :=
  match p, s with
  | [], _ => true
  | c :: p', d :: s' => Ascii.eqb c d && prefix_l p' s'
  | _ :: _, [] => false
  end.

(** [s.startswith(p)] and [s.endswith(p)] *)
Definition startswith (p s : string) : bool :=
  prefix_l (list_ascii_of_string p) (list_ascii_of_string s).
Definition endswith (p s : string) : bool :=
  prefix_l (rev (list_ascii_of_string p)) (rev (list_ascii_of_string s)).

(** [s.count(c)] for a one-character [c] *)
Definition count (c : ascii) (s : string) : nat :=
  length (List.filter (fun d => Ascii.eqb c d) (list_ascii_of_string s)).

(** [c in s] for a one-character [c] *)
Definition contains (c : ascii) (s : string) : bool :=
  existsb (fun d => Ascii.eqb c d) (list_ascii_of_string s).

Definition newline : ascii := ascii_of_nat 10.
Definition nl : string := String newline EmptyString.

(** [file.readlines()]: split after every newline, keeping it. *)
Fixpoint readlines_go (cur : list ascii) (cs : list ascii) : list string :=
  match cs with
  | [] => match cur with
          | [] => []
          | _ => [string_of_list_ascii (rev cur)]
          end
  | c :: cs' =>
      if Ascii.eqb c newline
      then string_of_list_ascii (rev (c :: cur)) :: readlines_go [] cs'
      else readlines_go (c :: cur) cs'
  end.
Definition readlines (text : string) : list string :=
  readlines_go [] (list_ascii_of_string text).

(** [file.writelines(lines)] writes the concatenation. *)
Definition writelines (lines : list string) : string :=
  String.concat "" lines.

(** [sep.join(xs)] *)
Definition join (sep : string) (xs : list string) : string :=
  String.concat sep xs.

(** [l.insert(i, x)] and [l[i:i] = xs] for [0 <= i]; an index past the end
    inserts at the end. *)
Definition list_insert {A} (i : nat) (x : A) (l : list A) : list A :=
  firstn i l ++ x :: skipn i l.
Definition slice_insert {A} (i : nat) (xs l : list A) : list A :=
  firstn i l ++ xs ++ skipn i l.

End Py.

Import Py.

(* ------------------------------------------------------------------ *)
(** ** Data model *)

Inductive SectionType :=
  PLUGINS | DEPENDENCIES | REPOSITORIES | CONFIGURATIONS | TASKS
| ANDROID | JAVA | KOTLIN | CUSTOM.

Record GradleSection := mkGradleSection {
  name : string;
  content : list string;
  start_line : nat;
  end_line : nat;
  section_type : SectionType;
  indentation : string
}.

Record MigrationChange := mkMigrationChange {
  section_name : string;
  change_type : string;
  description : string;
  details : list string
}.

(** A Python [dict] keyed by section name: an association list in insertion
    order.  Assigning an existing key replaces its value in place. *)
Definition Sections := list (string * GradleSection).

Fixpoint dict_set (k : string) (v : GradleSection) (d : Sections) : Sections :=
  match d with
  | [] => [(k, v)]
  | (k', v') :: d' =>
      if String.eqb k k' then (k, v) :: d' else (k', v') :: dict_set k v d'
  end.

Fixpoint dict_get (k : string) (d : Sections) : option GradleSection :=
  match d with
  | [] => None
  | (k', v) :: d' => if String.eqb k k' then Some v else dict_get k d'
  end.

Definition dict_keys (d : Sections) : list string := map fst d.

(* ------------------------------------------------------------------ *)
(** ** Section classifier *)

Definition lower_char (c : ascii) : ascii :=
  let n := nat_of_ascii c in
  if (65 <=? n) && (n <=? 90) then ascii_of_nat (n + 32) else c.

Definition lower (s : string) : string :=
  string_of_list_ascii (map lower_char (list_ascii_of_string s)).

Definition _determine_section_type (section_name : string) : SectionType :=
  let l := lower section_name in
  if String.eqb l "plugins" || String.eqb l "plugin" then PLUGINS
  else if String.eqb l "dependencies" || String.eqb l "dependency" then DEPENDENCIES
  else if String.eqb l "repositories" || String.eqb l "repository" then REPOSITORIES
  else if String.eqb l "configurations" || String.eqb l "configuration" then CONFIGURATIONS
  else if String.eqb l "tasks" || String.eqb l "task" then TASKS
  else if String.eqb l "android" then ANDROID
  else if String.eqb l "java" then JAVA
  else if String.eqb l "kotlin" then KOTLIN
  else CUSTOM.

(* ------------------------------------------------------------------ *)
(** ** Section scanner *)

(** The regular expression [ ^([a-zA-Z_][a-zA-Z0-9_] * )\s * \{ ] (spaces
    added around the stars) applied with [re.match]; the result is
    [group(1)].  Backtracking into the greedy
    identifier can never help, since a shorter identifier is followed by an
    identifier character, which is neither [\s] nor [{]. *)
Definition is_ident_start (c : ascii) : bool :=
  let n := nat_of_ascii c in
  ((65 <=? n) && (n <=? 90)) || ((97 <=? n) && (n <=? 122)) || (n =? 95).
Definition is_ident_char (c : ascii) : bool :=
  is_ident_start c || (let n := nat_of_ascii c in (48 <=? n) && (n <=? 57)).

Fixpoint take_ident (acc cs : list ascii) : list ascii * list ascii :=
  match cs with
  | c :: cs' => if is_ident_char c then take_ident (c :: acc) cs' else (rev acc, cs)
  | [] => (rev acc, [])
  end.

Definition section_match (line : string) : option string :=
  match list_ascii_of_string line with
  | c :: cs =>
      if is_ident_start c then
        let '(ident, rest) := take_ident [c] cs in
        match lstrip_l rest with
        | d :: _ => if Ascii.eqb d "{"%char then Some (string_of_list_ascii ident) else None
        | [] => None
        end
      else None
  | [] => None
  end.

(** [brace_count += lines[i].count('{') - lines[i].count('}')] *)
Definition net_braces (l : string) : Z :=
  (Z.of_nat (count "{"%char l) - Z.of_nat (count "}"%char l))%Z.

(** The inner loop [while i < len(lines) and brace_count > 0].  The loop is
    run with a bound on its iterations; [None] means the bound ran out, which
    the theorems show never happens for the bound [identify_sections] uses. *)
Fixpoint find_section_end (fuel : nat) (lines : list string) (i : nat)
    (brace_count : Z) (content : list string) : option (nat * Z * list string) :=
  match fuel with
  | O => None
  | S fuel' =>
      if (i <? length lines) && (0 <? brace_count)%Z then
        let l := nth i lines "" in
        find_section_end fuel' lines (S i) (brace_count + net_braces l)%Z
          (content ++ [l])
      else Some (i, brace_count, content)
  end.

Definition skip_line (line : string) : bool :=
  String.eqb line "" || startswith "//" line || startswith "/*" line.

(** The outer loop [while i < len(lines)]. *)
Fixpoint scan_sections (fuel : nat) (lines : list string) (i : nat)
    (sections : Sections) : option Sections :=
  match fuel with
  | O => None
  | S fuel' =>
      if i <? length lines then
        let line := strip (nth i lines "") in
        if skip_line line then scan_sections fuel' lines (S i) sections
        else match section_match line with
             | Some section_name =>
                 match find_section_end (S (length lines)) lines (S i) 1%Z
                         [nth i lines ""] with
                 | Some (i', _, content) =>
                     scan_sections fuel' lines i'
                       (dict_set section_name
                          {| name := section_name; content := content;
                             start_line := i; end_line := i' - 1;
                             section_type := _determine_section_type section_name;
                             indentation := "" |} sections)
                 | None => None
                 end
             | None => scan_sections fuel' lines (S i) sections
             end
      else Some sections
  end.

Definition identify_sections (lines : list string) : option Sections :=
  scan_sections (S (length lines)) lines 0 [].

(** The mapping the rest of the class works with; [identify_sections_total]
    shows the default is never taken. *)
Definition sections_of (lines : list string) : Sections :=
  default [] (identify_sections lines).

(* ------------------------------------------------------------------ *)
(** ** Meaningful lines *)

(** [extract_content_lines], defined identically inside both
    [_migrate_new_section] and [_migrate_existing_section]. *)
Definition meaningful (stripped : string) : bool :=
  negb (String.eqb stripped "") &&
  negb (startswith "//" stripped) &&
  negb (startswith "/*" stripped) &&
  negb (startswith "{" stripped) &&
  negb (startswith "}" stripped) &&
  negb (endswith "{" stripped) &&
  negb (endswith "}" stripped).

Definition extract_content_lines (section_content : list string) : list string :=
  List.filter meaningful (map strip section_content).

(* ------------------------------------------------------------------ *)
(** ** The migrator object and its exceptions *)

(** The exceptions the class raises.  [str(e)] of each is its message;
    [str(KeyError(k))] is the quoted key. *)
Inductive PyExc :=
| FileNotFoundError (msg : string)
| KeyError (key : string)
| Exception (msg : string).

Definition exc_str (e : PyExc) : string :=
  match e with
  | FileNotFoundError m => m
  | KeyError k => "'" +:+ k +:+ "'"
  | Exception m => m
  end.

(** The attributes of a [BuildGradleMigrator] together with the file system
    it reads and writes (path to file text; an absent path does not exist). *)
Record Migrator := mkMigrator {
  build_source_gradle_path : string;
  build_target_gradle_path : string;
  files : gmap string string;
  source_sections : Sections;
  target_sections : Sections;
  migration_changes : list MigrationChange;
  validation_errors : list string
}.

(** [BuildGradleMigrator(src, tgt)] over the file system [fs]. *)
Definition init_migrator (src tgt : string) (fs : gmap string string) : Migrator :=
  mkMigrator src tgt fs [] [] [] [].

(** A state and exception monad: the state changes made before an exception
    is raised persist, as attribute and file updates do in Python. *)
Definition M (A : Type) : Type := Migrator -> Migrator * (PyExc + A).

Definition ret {A} (x : A) : M A := fun st => (st, inr x).
Definition bind {A B} (c : M A) (k : A -> M B) : M B :=
  fun st => match c st with
            | (st', inl e) => (st', inl e)
            | (st', inr x) => k x st'
            end.
Definition raise {A} (e : PyExc) : M A := fun st => (st, inl e).
(** [try: c except ... as e: h(e)] *)
Definition try_except {A} (c : M A) (h : PyExc -> M A) : M A :=
  fun st => match c st with
            | (st', inl e) => h e st'
            | r => r
            end.
Definition gets {A} (f : Migrator -> A) : M A := fun st => (st, inr (f st)).
Definition modify (f : Migrator -> Migrator) : M unit := fun st => (f st, inr tt).

Notation "'let*' x := c 'in' k" := (bind c (fun x => k))
  (at level 200, x name, c at level 100, k at level 200).
Notation "c ;; k" := (bind c (fun _ => k)) (at level 100, right associativity).

Definition set_files (fs : gmap string string) (st : Migrator) : Migrator :=
  mkMigrator (build_source_gradle_path st) (build_target_gradle_path st) fs
    (source_sections st) (target_sections st) (migration_changes st)
    (validation_errors st).
Definition set_source_sections (s : Sections) (st : Migrator) : Migrator :=
  mkMigrator (build_source_gradle_path st) (build_target_gradle_path st)
    (files st) s (target_sections st) (migration_changes st)
    (validation_errors st).
Definition set_target_sections (s : Sections) (st : Migrator) : Migrator :=
  mkMigrator (build_source_gradle_path st) (build_target_gradle_path st)
    (files st) (source_sections st) s (migration_changes st)
    (validation_errors st).
Definition add_change (c : MigrationChange) (st : Migrator) : Migrator :=
  mkMigrator (build_source_gradle_path st) (build_target_gradle_path st)
    (files st) (source_sections st) (target_sections st)
    (migration_changes st ++ [c]) (validation_errors st).
Definition add_validation_error (e : string) (st : Migrator) : Migrator :=
  mkMigrator (build_source_gradle_path st) (build_target_gradle_path st)
    (files st) (source_sections st) (target_sections st)
    (migration_changes st) (validation_errors st ++ [e]).

(** [open(path, 'w').writelines(lines)] *)
Definition write_lines (path : string) (lines : list string) : M unit :=
  modify (fun st => set_files (<[path := writelines lines]> (files st)) st).

(** [dict[key]] *)
Definition dict_lookup (k : string) (d : Sections) : M GradleSection :=
  match dict_get k d with
  | Some v => ret v
  | None => raise (KeyError k)
  end.

(* ------------------------------------------------------------------ *)
(** ** Reading and parsing *)

Definition read_gradle_file (file_path : string) : M (list string) :=
  fun st => match files st !! file_path with
            | None => (st, inl (FileNotFoundError ("File not found: " +:+ file_path)))
            | Some text => (st, inr (readlines text))
            end.

Definition parse_gradle_files : M unit :=
  try_except
    (let* src := gets build_source_gradle_path in
     let* source_lines := read_gradle_file src in
     modify (set_source_sections (sections_of source_lines)) ;;
     let* tgt := gets build_target_gradle_path in
     let* target_lines := read_gradle_file tgt in
     modify (set_target_sections (sections_of target_lines)))
    (fun e => match e with
              | FileNotFoundError _ =>
                  raise (FileNotFoundError ("Error reading Gradle file: " +:+ exc_str e))
              | _ => raise (Exception ("Error parsing Gradle files: " +:+ exc_str e))
              end).

(* ------------------------------------------------------------------ *)
(** ** Merge engine *)

Fixpoint for_each (xs : list string) (f : string -> M unit) : M unit :=
  match xs with
  | [] => ret tt
  | x :: xs' => f x ;; for_each xs' f
  end.

Definition migration_comment_new : string :=
  "// Section Added in migration from source project" +:+ nl.

(** [for i in range(len(lines) - 1, -1, -1): if lines[i].strip() == '}']:
    the indices [k - 1] down to [0]. *)
Fixpoint last_closing_brace (lines : list string) (k : nat) : option nat :=
  match k with
  | O => None
  | S j => if String.eqb (strip (nth j lines "")) "}" then Some j
           else last_closing_brace lines j
  end.

Definition new_section_insert_position (target_lines : list string) : nat :=
  match last_closing_brace target_lines (length target_lines) with
  | Some i => i
  | None => length target_lines
  end.

Definition _migrate_new_section (section_name : string) : M unit :=
  let* src := gets source_sections in
  let* source_section := dict_lookup section_name src in
  let* tgt := gets build_target_gradle_path in
  let* target_lines := read_gradle_file tgt in
  let insert_position := new_section_insert_position target_lines in
  let new_section_content :=
    [migration_comment_new] ++ content source_section ++ [nl] in
  let target_lines' := slice_insert insert_position new_section_content target_lines in
  write_lines tgt target_lines' ;;
  let content_details := extract_content_lines (content source_section) in
  modify (add_change
    {| section_name := section_name;
       change_type := "ADD";
       description := "Added new section '" +:+ section_name +:+ "' from source project";
       details := ("Added complete section with "
                   +:+ pretty (length (content source_section)) +:+ " lines")
                  :: content_details |}).

Definition migration_comment_update : string :=
  "// Section updated in migration from source to target" +:+ nl.

(** [for i in range(section_start, len(target_lines)): if '{' in
    target_lines[i]: insert_position = i + 1; break], started with
    [insert_position = section_start + 1]; [k] counts the remaining indices. *)
Fixpoint first_open_brace_after (lines : list string) (i k : nat) (dflt : nat) : nat :=
  match k with
  | O => dflt
  | S k' => if contains "{"%char (nth i lines "") then S i
            else first_open_brace_after lines (S i) k' dflt
  end.

Definition new_content_of (source_content_lines target_content_lines : list string)
    : list string :=
  List.filter (fun l => negb (bool_decide (l ∈ target_content_lines))) source_content_lines.

Definition added_line_comment : string :=
  "    // Added as part of migration from source to target" +:+ nl.

Definition new_content_lines_of (new_content : list string) : list string :=
  flat_map (fun c => if negb (String.eqb c "") && negb (startswith "//" c)
                     then [added_line_comment; "    " +:+ c +:+ nl] else [])
    new_content.

(** [_migrate_existing_section] inserts at [target_section.start_line],
    the index recorded by the initial parse of the target file. *)
Definition _migrate_existing_section (section_name : string) : M unit :=
  let* src := gets source_sections in
  let* source_section := dict_lookup section_name src in
  let* tgts := gets target_sections in
  let* target_section := dict_lookup section_name tgts in
  let* tgt := gets build_target_gradle_path in
  let* target_lines := read_gradle_file tgt in
  let source_content_lines := extract_content_lines (content source_section) in
  let target_content_lines := extract_content_lines (content target_section) in
  let new_content := new_content_of source_content_lines target_content_lines in
  match new_content with
  | [] => ret tt
  | _ :: _ =>
      let section_start := start_line target_section in
      let target_lines1 := list_insert section_start migration_comment_update target_lines in
      let insert_position :=
        first_open_brace_after target_lines1 section_start
          (length target_lines1 - section_start) (S section_start) in
      let target_lines2 :=
        slice_insert insert_position (new_content_lines_of new_content) target_lines1 in
      write_lines tgt target_lines2 ;;
      modify (add_change
        {| section_name := section_name;
           change_type := "UPDATE";
           description := "Updated section '" +:+ section_name
                          +:+ "' with new content from source";
           details := new_content |})
  end.

(** [set(source) - set(target)] and [set(source) & set(target)], listed in
    first-seen order of the source mapping. *)
Definition source_only_names (src tgt : Sections) : list string :=
  List.filter (fun k => negb (bool_decide (k ∈ dict_keys tgt))) (dict_keys src).
Definition common_names (src tgt : Sections) : list string :=
  List.filter (fun k => bool_decide (k ∈ dict_keys tgt)) (dict_keys src).

(** [set_iter names] is the order in which Python iterates the set of
    [names]: a permutation fixed by the string hashes of the running
    interpreter, which change with its per-process hash seed. *)
Definition migrate_sections (set_iter : list string -> list string) : M unit :=
  let* src := gets source_sections in
  let* tgts := gets target_sections in
  for_each (set_iter (source_only_names src tgts)) _migrate_new_section ;;
  let* src := gets source_sections in
  let* tgts := gets target_sections in
  for_each (set_iter (common_names src tgts)) _migrate_existing_section.

(* ------------------------------------------------------------------ *)
(** ** Structural validator *)

(** The character loop over [''.join(target_lines)]: [None] when the count
    goes negative ("Unbalanced braces detected"), else the final count. *)
Fixpoint brace_scan (cs : list ascii) (brace_count : Z) : option Z :=
  match cs with
  | [] => Some brace_count
  | c :: cs' =>
      if Ascii.eqb c "{"%char then brace_scan cs' (brace_count + 1)%Z
      else if Ascii.eqb c "}"%char then
        if (brace_count - 1 <? 0)%Z then None else brace_scan cs' (brace_count - 1)%Z
      else brace_scan cs' brace_count
  end.

(** [set(xs)] listed in first-seen order. *)
Definition dedup (xs : list string) : list string :=
  fold_left (fun acc x => if bool_decide (x ∈ acc) then acc else acc ++ [x]) xs [].

(** [list.count(x)] *)
Definition count_occ_str (xs : list string) (x : string) : nat :=
  length (List.filter (String.eqb x) xs).

Definition validate_gradle_structure (set_iter : list string -> list string) : M bool :=
  try_except
    (let* tgt := gets build_target_gradle_path in
     let* target_lines := read_gradle_file tgt in
     let content_text := join "" target_lines in
     match brace_scan (list_ascii_of_string content_text) 0%Z with
     | None => modify (add_validation_error "Unbalanced braces detected") ;; ret false
     | Some brace_count =>
         if negb (Z.eqb brace_count 0) then
           modify (add_validation_error
             ("Unbalanced braces: " +:+ pretty brace_count +:+ " unclosed braces")) ;;
           ret false
         else
           let sections := sections_of target_lines in
           let section_names := map (fun p => name (snd p)) sections in
           let duplicates :=
             List.filter (fun n => 1 <? count_occ_str section_names n)
               (set_iter (dedup section_names)) in
           match duplicates with
           | _ :: _ =>
               modify (add_validation_error
                 ("Duplicate sections found: " +:+ join ", " duplicates)) ;;
               ret false
           | [] => ret true
           end
     end)
    (fun e => modify (add_validation_error ("Validation error: " +:+ exc_str e)) ;;
              ret false).

(* ------------------------------------------------------------------ *)
(** ** Summary and the whole run *)

Fixpoint render_details (prefix : string) (i : nat) (ds : list string) : string :=
  match ds with
  | [] => ""
  | d :: ds' => prefix +:+ "Change-" +:+ pretty i +:+ ": " +:+ d +:+ nl
                +:+ render_details prefix (S i) ds'
  end.

Definition render_added (c : MigrationChange) : string :=
  "Section: " +:+ section_name c +:+ nl
  +:+ "Description: " +:+ description c +:+ nl
  +:+ render_details "  " 1 (tail (details c)) +:+ nl.

Definition render_updated (c : MigrationChange) : string :=
  "Section: " +:+ section_name c +:+ nl
  +:+ "Description: " +:+ description c +:+ nl
  +:+ render_details "" 1 (details c) +:+ nl.

Definition generate_summary : M string :=
  let* changes := gets migration_changes in
  let* errors := gets validation_errors in
  let summary := "=== BuildGradle Migration Summary ===" +:+ nl +:+ nl in
  match changes with
  | [] => ret (summary +:+ "No changes were made during migration." +:+ nl)
  | _ :: _ =>
      let added := List.filter (fun c => String.eqb (change_type c) "ADD") changes in
      let updated := List.filter (fun c => String.eqb (change_type c) "UPDATE") changes in
      let summary :=
        match added with
        | [] => summary
        | _ => summary +:+ "=== Added Sections ===" +:+ nl
               +:+ String.concat "" (map render_added added)
        end in
      let summary :=
        match updated with
        | [] => summary
        | _ => summary +:+ "=== Updated Sections ===" +:+ nl
               +:+ String.concat "" (map render_updated updated)
        end in
      let summary := summary +:+ "=== Validation Results ===" +:+ nl in
      ret (match errors with
           | [] => summary +:+ "Validation PASSED: All checks completed successfully." +:+ nl
           | _ => summary +:+ "Validation FAILED:" +:+ nl
                  +:+ String.concat "" (map (fun e => "  - " +:+ e +:+ nl) errors)
           end)
  end.

Definition summary_path : string := "build_gradle_migration_result.txt".

(** [run_migration]; the progress [print]s are left out. *)
Definition run_migration (set_iter : list string -> list string) : M string :=
  try_except
    (parse_gradle_files ;;
     migrate_sections set_iter ;;
     let* _validation_passed := validate_gradle_structure set_iter in
     let* summary := generate_summary in
     modify (fun st => set_files (<[summary_path := summary]> (files st)) st) ;;
     ret summary)
    (fun e => ret ("Migration failed with error: " +:+ exc_str e)).

(* ------------------------------------------------------------------ *)
(** ** The common-section step as the spec describes it *)

(** Spec, step 2: the target mapping is rebuilt from the re-read target
    file before the write, so the section's position (and content) are
    those of the current file.  Otherwise the same as
    [_migrate_existing_section]. *)
Definition spec_migrate_existing_section_fresh (section_name : string) : M unit :=
  let* src := gets source_sections in
  let* source_section := dict_lookup section_name src in
  let* tgt := gets build_target_gradle_path in
  let* target_lines := read_gradle_file tgt in
  let* target_section := dict_lookup section_name (sections_of target_lines) in
  let source_content_lines := extract_content_lines (content source_section) in
  let target_content_lines := extract_content_lines (content target_section) in
  let new_content := new_content_of source_content_lines target_content_lines in
  match new_content with
  | [] => ret tt
  | _ :: _ =>
      let section_start := start_line target_section in
      let target_lines1 := list_insert section_start migration_comment_update target_lines in
      let insert_position :=
        first_open_brace_after target_lines1 section_start
          (length target_lines1 - section_start) (S section_start) in
      let target_lines2 :=
        slice_insert insert_position (new_content_lines_of new_content) target_lines1 in
      write_lines tgt target_lines2 ;;
      modify (add_change
        {| section_name := section_name;
           change_type := "UPDATE";
           description := "Updated section '" +:+ section_name
                          +:+ "' with new content from source";
           details := new_content |})
  end.

Definition spec_migrate_sections_fresh (set_iter : list string -> list string) : M unit :=
  let* src := gets source_sections in
  let* tgts := gets target_sections in
  for_each (set_iter (source_only_names src tgts)) _migrate_new_section ;;
  let* src := gets source_sections in
  let* tgts := gets target_sections in
  for_each (set_iter (common_names src tgts)) spec_migrate_existing_section_fresh.

(* ------------------------------------------------------------------ *)
(** ** Concrete inputs *)

(** The text of a file whose lines are [xs], each ended by a newline. *)
Definition lines_text (xs : list string) : string :=
  String.concat "" (map (fun x => x +:+ nl) xs).

Definition two_files (src_text tgt_text : string) : gmap string string :=
  <["src.gradle" := src_text]> (<["build.gradle" := tgt_text]> ∅).

(** The migrator after [parse_gradle_files] on two files. *)
Definition parsed (src_text tgt_text : string) : Migrator :=
  fst (parse_gradle_files
         (init_migrator "src.gradle" "build.gradle" (two_files src_text tgt_text))).

Definition target_after (m : M unit) (src_text tgt_text : string) : option string :=
  files (fst (m (parsed src_text tgt_text))) !! "build.gradle".

Definition c1_source : string :=
  lines_text ["repositories {"; "  mavenCentral()"; "}";
              "dependencies {"; "  implementation 'a:b:1.0'"; "}"].
Definition c1_target : string :=
  lines_text ["plugins {"; "}"; "dependencies { implementation 'x:y:1' }"].

Definition c2_source : string :=
  lines_text ["repositories {"; "  mavenCentral()"; "}";
              "ext {"; "  springVersion = '6.1'"; "}"].
Definition c2_target : string := lines_text ["plugins {"; "  id 'java'"; "}"].

Definition c3_target : string :=
  lines_text ["plugins {"; "  id 'java'"; "}"; "plugins {"; "  id 'application'"; "}"].

Definition c7_lines : list string := ["a { b {" +:+ nl; "}" +:+ nl; "}" +:+ nl].

(** A target file whose only line has no final newline. *)
Definition c9_target : string := "plugins { id 'java' }".
Definition c9_source : string := lines_text ["repositories {"; "  mavenCentral()"; "}"].

(* ------------------------------------------------------------------ *)
(** ** Brace arithmetic over lines *)

(** Opening minus closing braces summed over lines. *)
Definition net_sum (ls : list string) : Z :=
  fold_right (fun l acc => (net_braces l + acc)%Z) 0%Z ls.

(** [lines[a:b]] *)
Definition seg (lines : list string) (a b : nat) : list string :=
  firstn (b - a) (skipn a lines).

(** The scanner's counter stays positive while a section is read, and
    either reaches [<= 0] on its last line or the section runs to the last
    input line.  The counter starts at 1 after the opening line. *)
Definition counter_discipline (lines : list string) (s : GradleSection) : Prop :=
  (forall j, start_line s < j <= end_line s ->
     (0 < 1 + net_sum (seg lines (S (start_line s)) j))%Z) /\
  ((1 + net_sum (seg lines (S (start_line s)) (S (end_line s))) <= 0)%Z
   \/ end_line s = length lines - 1).

(** The section occupies exactly the lines [start_line .. end_line]. *)
Definition spans (lines : list string) (s : GradleSection) : Prop :=
  start_line s <= end_line s < length lines /\
  content s = seg lines (start_line s) (S (end_line s)).

Definition disjoint (s1 s2 : GradleSection) : Prop :=
  end_line s1 < start_line s2 \/ end_line s2 < start_line s1.

(** The spec's reading of "meaningful": non-blank, not a comment line, and
    not a line that is solely an opening or closing brace. *)
Definition spec_meaningful (stripped : string) : Prop :=
  stripped <> "" /\ startswith "//" stripped = false /\
  startswith "/*" stripped = false /\ stripped <> "{" /\ stripped <> "}".

(** The change record each step appends, as a function of the two parsed
    mappings only. *)
Definition add_record (src : Sections) (n : string) : list MigrationChange :=
  match dict_get n src with
  | Some s =>
      [{| section_name := n;
          change_type := "ADD";
          description := "Added new section '" +:+ n +:+ "' from source project";
          details := ("Added complete section with "
                      +:+ pretty (length (content s)) +:+ " lines")
                     :: extract_content_lines (content s) |}]
  | None => []
  end.

Definition update_record (src tgt : Sections) (n : string) : list MigrationChange :=
  match dict_get n src, dict_get n tgt with
  | Some s, Some t =>
      match new_content_of (extract_content_lines (content s))
              (extract_content_lines (content t)) with
      | [] => []
      | nc => [{| section_name := n;
                  change_type := "UPDATE";
                  description := "Updated section '" +:+ n
                                 +:+ "' with new content from source";
                  details := nc |}]
      end
  | _, _ => []
  end.

(** The migrator keeps its two mappings and its target file exists. *)
Definition merge_inv (src tgt : Sections) (st : Migrator) : Prop :=
  source_sections st = src /\ target_sections st = tgt /\
  is_Some (files st !! build_target_gradle_path st).

(** What the outer loop keeps for the sections found before index [i]. *)
Definition scan_inv (lines : list string) (i : nat) (m : Sections) : Prop :=
  (forall k s, In (k, s) m ->
     name s = k /\ spans lines s /\ counter_discipline lines s /\ end_line s < i) /\
  (forall k1 s1 k2 s2, In (k1, s1) m -> In (k2, s2) m -> k1 <> k2 -> disjoint s1 s2).

Definition c6_source : string :=
  lines_text ["dependencies {"; "  implementation 'a:b:1.0'"; "}"].
Definition c6_target : string :=
  lines_text ["dependencies {"; "  // pinned"; "  implementation 'a:b:1.0'";
              "  testImplementation 'junit:junit:4.13'"; "}"].

(* ================================================================== *)
(* ------------------------------------------------------------------ *)
(** ** Shapes used by the further properties *)

(** A line as [readlines] returns it inside a file: text without a
    newline, followed by one newline. *)
Definition terminated_line (l : string) : Prop :=
  exists s, l = s +:+ nl /\ forall c, In c (list_ascii_of_string s) -> c <> newline.

(** The line where section [s] starts opens it under the name [k]. *)
Definition opens_at (lines : list string) (k : string) (s : GradleSection) : Prop :=
  skip_line (strip (nth (start_line s) lines "")) = false /\
  section_match (strip (nth (start_line s) lines "")) = Some k /\
  section_type s = _determine_section_type k.

(** Opening minus closing braces in a list of characters. *)
Definition char_net (cs : list ascii) : Z :=
  (Z.of_nat (length (List.filter (fun d => Ascii.eqb "{"%char d) cs))
   - Z.of_nat (length (List.filter (fun d => Ascii.eqb "}"%char d) cs)))%Z.

(** From [st] to [st']: the paths, the parsed mappings and the validation
    errors are unchanged, no file other than the target is touched, and
    the target's old text survives, character by character and in order,
    inside its new text. *)
Definition step_frame (st st' : Migrator) : Prop :=
  build_source_gradle_path st' = build_source_gradle_path st /\
  build_target_gradle_path st' = build_target_gradle_path st /\
  source_sections st' = source_sections st /\
  target_sections st' = target_sections st /\
  validation_errors st' = validation_errors st /\
  (forall p, p <> build_target_gradle_path st -> files st' !! p = files st !! p) /\
  (forall text, files st !! build_target_gradle_path st = Some text ->
     exists text', files st' !! build_target_gradle_path st = Some text' /\
       sublist (list_ascii_of_string text) (list_ascii_of_string text')).

(** What an UPDATE record for [n] says: both mappings have [n], and its
    details are the source's meaningful lines the target section lacks,
    at least one of them. *)
Definition update_detail_ok (src tgt : Sections) (c : MigrationChange) : Prop :=
  exists s t, dict_get (section_name c) src = Some s /\
    dict_get (section_name c) tgt = Some t /\ details c <> [] /\
    Forall (fun d => In d (extract_content_lines (content s)) /\
                     ~ In d (extract_content_lines (content t))) (details c).

(** * Theorems *)

(* ------------------------------------------------------------------ *)
(** ** Concrete runs *)

(** Claim C1: the common-section step should insert at the section's
    current position in the re-read target file.  It inserts at the start
    line recorded by the initial parse: here the earlier insertion of
    [repositories] shifted [dependencies] from line 2 to line 7, and the
    update marker and the new dependency land before and inside the
    inserted [repositories] block; rebuilding the target mapping first, as
    the spec describes, places them at [dependencies].  (Each name set has
    one element, so every set iteration order is [id] here.) *)
Theorem C1_update_uses_stale_start_line :
  target_after (migrate_sections id) c1_source c1_target =
    Some (lines_text
      ["plugins {";
       "// Section Added in migration from source project";
       "// Section updated in migration from source to target";
       "repositories {";
       "    // Added as part of migration from source to target";
       "    implementation 'a:b:1.0'";
       "  mavenCentral()"; "}"; ""; "}";
       "dependencies { implementation 'x:y:1' }"]) /\
  target_after (spec_migrate_sections_fresh id) c1_source c1_target =
    Some (lines_text
      ["plugins {";
       "// Section Added in migration from source project";
       "repositories {"; "  mavenCentral()"; "}"; ""; "}";
       "// Section updated in migration from source to target";
       "dependencies { implementation 'x:y:1' }";
       "    // Added as part of migration from source to target";
       "    implementation 'a:b:1.0'"]).
Proof. split; vm_compute; reflexivity. Qed.

(** Claim C2: repeated runs need not produce the same change log, since the
    source-only names are iterated in Python set order.  With the two
    iteration orders a two-element set can have, the [ADD] records of
    [repositories] and [ext] come out in opposite orders. *)
Lemma C2_set_order_changes_log :
  ~ (forall set_iter1 set_iter2 : list string -> list string,
       (forall l, Permutation (set_iter1 l) l) ->
       (forall l, Permutation (set_iter2 l) l) ->
       migration_changes (fst (migrate_sections set_iter1 (parsed c2_source c2_target)))
       = migration_changes (fst (migrate_sections set_iter2 (parsed c2_source c2_target)))).
Proof.
  intros H.
  specialize (H id (@rev string) (fun l => Permutation_refl l)
                (fun l => Permutation_sym (Permutation_rev l))).
  vm_compute in H. discriminate H.
Qed.

(** Claim C3: the duplicate-section check of [validate_gradle_structure]
    should fail on a target with two top-level [plugins] blocks.  It reads
    the names from the collapsed mapping, which holds one entry per name,
    so the file validates as PASSED with no error. *)
Theorem C3_duplicate_plugins_passes_validation :
  validate_gradle_structure id (parsed c2_source c3_target) =
    (parsed c2_source c3_target, inr true) /\
  validation_errors (parsed c2_source c3_target) = [].
Proof. split; vm_compute; reflexivity. Qed.

(** Claim C4: a line that merely ends with a brace while carrying other
    content is meaningful by the spec's reading, but the filter drops it. *)
Lemma C4_brace_ending_line_dropped :
  ~ (forall (section_content : list string) (x : string),
       In x (extract_content_lines section_content) <->
       exists l, In l section_content /\ x = strip l /\ spec_meaningful x).
Proof.
  intros H.
  destruct (proj2 (H ["  android {" +:+ nl] "android {")) as [].
  exists ("  android {" +:+ nl). split; [left; reflexivity|].
  split; [vm_compute; reflexivity|].
  unfold spec_meaningful; vm_compute.
  repeat split; try reflexivity; discriminate.
Qed.

(** Claim C7: a globally balanced input in which the only captured section
    closes before end of input with content net brace count 1: the counter
    starts at 1 after the opening line [a { b {], whose two braces are not
    counted. *)
Lemma C7_opening_line_braces_not_counted :
  brace_scan (list_ascii_of_string (join "" c7_lines)) 0%Z = Some 0%Z /\
  exists m s, identify_sections c7_lines = Some m /\ dict_get "a" m = Some s /\
    end_line s < length c7_lines - 1 /\ net_sum (content s) = 1%Z.
Proof.
  split; [vm_compute; reflexivity|].
  eexists _, _. split; [vm_compute; reflexivity|].
  split; [vm_compute; reflexivity|].
  vm_compute. split; [lia|reflexivity].
Qed.

(** Claim C9: an insertion after a last line that has no newline joins the
    inserted text onto that line: the original line [plugins { id 'java' }]
    is no longer a line of the file. *)
Theorem C9_unterminated_last_line_is_edited :
  readlines c9_target = ["plugins { id 'java' }"] /\
  option_map readlines (target_after (migrate_sections id) c9_source c9_target) =
    Some ["plugins { id 'java' }" +:+ migration_comment_new;
          "repositories {" +:+ nl; "  mavenCentral()" +:+ nl; "}" +:+ nl; nl].
Proof. split; vm_compute; reflexivity. Qed.

(* ------------------------------------------------------------------ *)
(** ** Section scanner: the loop bound suffices, spans and disjointness *)

Lemma net_sum_app (a b : list string) :
  net_sum (a ++ b) = (net_sum a + net_sum b)%Z.
Proof. induction a as [|x a IH]; simpl; [reflexivity|]. rewrite IH; lia. Qed.

Lemma skipn_nth_cons (l : list string) (i : nat) :
  i < length l -> skipn i l = nth i l "" :: skipn (S i) l.
Proof.
  revert l; induction i as [|i IH]; intros [|x l] Hi; simpl in *; try lia.
  - reflexivity.
  - apply IH; lia.
Qed.

Lemma seg_empty (lines : list string) (a : nat) : seg lines a a = [].
Proof. unfold seg. rewrite Nat.sub_diag. reflexivity. Qed.

Lemma seg_cons (lines : list string) (a b : nat) :
  a < length lines -> a < b ->
  seg lines a b = nth a lines "" :: seg lines (S a) b.
Proof.
  intros Ha Hb. unfold seg. rewrite (skipn_nth_cons lines a Ha).
  replace (b - a) with (S (b - S a)) by lia. reflexivity.
Qed.

Lemma seg_to_end (lines : list string) (a : nat) :
  seg lines a (length lines) = skipn a lines.
Proof.
  unfold seg. apply firstn_all2. rewrite length_skipn. lia.
Qed.

(** The inner loop ends within [fuel] iterations when [fuel] exceeds the
    number of lines left: the index grows by one per iteration. *)
Lemma find_section_end_spec (fuel : nat) (lines : list string) (i : nat)
    (bc : Z) (acc : list string) :
  length lines - i < fuel -> i <= length lines ->
  exists i' bc',
    find_section_end fuel lines i bc acc = Some (i', bc', acc ++ seg lines i i') /\
    i <= i' <= length lines /\
    bc' = (bc + net_sum (seg lines i i'))%Z /\
    (forall j, i <= j < i' -> (0 < bc + net_sum (seg lines i j))%Z) /\
    (i' = length lines \/ (bc' <= 0)%Z).
Proof.
  revert i bc acc.
  induction fuel as [|fuel IH]; intros i bc acc Hf Hi; [lia|].
  simpl. destruct (i <? length lines) eqn:Hlt; destruct (0 <? bc)%Z eqn:Hbc;
    simpl.
  - apply Nat.ltb_lt in Hlt. apply Z.ltb_lt in Hbc.
    destruct (IH (S i) (bc + net_braces (nth i lines ""))%Z
                (acc ++ [nth i lines ""])) as (i' & bc' & Hrun & Hr & Hbc' & Hpos & Hend);
      [lia|lia|].
    exists i', bc'. rewrite Hrun.
    rewrite (seg_cons lines i i') by lia.
    rewrite <- app_assoc. simpl.
    split; [reflexivity|]. split; [lia|].
    split; [rewrite Hbc'; simpl; lia|].
    split; [|exact Hend].
    intros j Hj. destruct (Nat.eq_dec j i) as [->|Hne].
    + rewrite seg_empty. simpl. lia.
    + rewrite (seg_cons lines i j) by lia. simpl.
      specialize (Hpos j ltac:(lia)). lia.
  - apply Z.ltb_ge in Hbc. exists i, bc. rewrite seg_empty, app_nil_r.
    split; [reflexivity|]. split; [lia|]. split; [simpl; lia|].
    split; [intros; lia|]. right; exact Hbc.
  - apply Nat.ltb_ge in Hlt. exists i, bc. rewrite seg_empty, app_nil_r.
    split; [reflexivity|]. split; [lia|]. split; [simpl; lia|].
    split; [intros; lia|]. left; lia.
  - apply Nat.ltb_ge in Hlt. exists i, bc. rewrite seg_empty, app_nil_r.
    split; [reflexivity|]. split; [lia|]. split; [simpl; lia|].
    split; [intros; lia|]. left; lia.
Qed.

Lemma dict_set_In (k : string) (v : GradleSection) (d : Sections) k' v' :
  In (k', v') (dict_set k v d) -> (k', v') = (k, v) \/ In (k', v') d.
Proof.
  induction d as [|[k0 v0] d IH]; simpl.
  - intros [H|[]]. left; congruence.
  - destruct (String.eqb k k0).
    + intros [H|H]; [left; congruence|right; right; exact H].
    + intros [H|H]; [right; left; exact H|].
      destruct (IH H) as [E|E]; [left; exact E|right; right; exact E].
Qed.

Lemma dict_get_In (k : string) (d : Sections) (v : GradleSection) :
  dict_get k d = Some v -> In (k, v) d.
Proof.
  induction d as [|[k0 v0] d IH]; simpl; [discriminate|].
  destruct (String.eqb_spec k k0) as [->|_].
  - intros [= ->]. left; reflexivity.
  - intros H. right; exact (IH H).
Qed.

Lemma scan_inv_mono (lines : list string) (i j : nat) (m : Sections) :
  i <= j -> scan_inv lines i m -> scan_inv lines j m.
Proof.
  intros Hij [H1 H2]. split; [|exact H2].
  intros k s Hin. destruct (H1 k s Hin) as (? & ? & ? & ?).
  split; [assumption|split; [assumption|split; [assumption|lia]]].
Qed.

Lemma scan_sections_spec (fuel : nat) (lines : list string) (i : nat) (m : Sections) :
  length lines - i < fuel -> i <= length lines -> scan_inv lines i m ->
  exists m' i', scan_sections fuel lines i m = Some m' /\ scan_inv lines i' m'.
Proof.
  revert i m.
  induction fuel as [|fuel IH]; intros i m Hf Hi Hinv; [lia|].
  cbn [scan_sections].
  destruct (i <? length lines) eqn:Hlt; [|eexists _, _; split; [reflexivity|exact Hinv]].
  apply Nat.ltb_lt in Hlt.
  destruct (skip_line (strip (nth i lines ""))).
  { apply IH; [lia|lia|]. apply (scan_inv_mono _ i); [lia|exact Hinv]. }
  destruct (section_match (strip (nth i lines ""))) as [section_name|].
  2: { apply IH; [lia|lia|]. apply (scan_inv_mono _ i); [lia|exact Hinv]. }
  destruct (find_section_end_spec (S (length lines)) lines (S i) 1%Z [nth i lines ""])
    as (i' & bc' & Hrun & Hr & Hbc' & Hpos & Hend); [lia|lia|].
  rewrite Hrun.
  apply IH; [lia|lia|].
  destruct Hinv as [H1 H2].
  assert (Hseg : [nth i lines ""] ++ seg lines (S i) i' = seg lines i i')
    by (rewrite (seg_cons lines i i') by lia; reflexivity).
  split.
  - intros k s Hin. apply dict_set_In in Hin as [E|Hin].
    + injection E as -> ->. simpl.
      split; [reflexivity|]. split; [|split; [|simpl; lia]].
      * unfold spans; simpl. split; [lia|].
        replace (S (i' - 1)) with i' by lia. rewrite <- Hseg; reflexivity.
      * unfold counter_discipline; simpl. split.
        -- intros j Hj. apply (Hpos j). lia.
        -- replace (S (i' - 1)) with i' by lia.
           destruct Hend as [Hend|Hend]; [right; lia|left; lia].
    + destruct (H1 k s Hin) as (? & ? & ? & ?).
      split; [assumption|split; [assumption|split; [assumption|lia]]].
  - intros k1 s1 k2 s2 Hin1 Hin2 Hne.
    apply dict_set_In in Hin1 as [E1|Hin1]; apply dict_set_In in Hin2 as [E2|Hin2].
    + injection E1 as -> ->. injection E2 as -> ->. congruence.
    + injection E1 as -> ->. destruct (H1 k2 s2 Hin2) as (_ & _ & _ & ?).
      right. simpl. lia.
    + injection E2 as -> ->. destruct (H1 k1 s1 Hin1) as (_ & _ & _ & ?).
      left. simpl. lia.
    + exact (H2 k1 s1 k2 s2 Hin1 Hin2 Hne).
Qed.

Lemma identify_sections_spec (lines : list string) :
  exists m, identify_sections lines = Some m /\
    (forall k s, In (k, s) m -> name s = k /\ spans lines s /\ counter_discipline lines s) /\
    (forall k1 s1 k2 s2, In (k1, s1) m -> In (k2, s2) m -> k1 <> k2 -> disjoint s1 s2).
Proof.
  destruct (scan_sections_spec (S (length lines)) lines 0 [])
    as (m & i' & Hrun & [H1 H2]); [lia|lia|split; simpl; tauto|].
  exists m. split; [exact Hrun|]. split; [|exact H2].
  intros k s Hin. destruct (H1 k s Hin) as (? & ? & ? & _). auto.
Qed.

(** Claim C7 (amended): for every input, each captured section's content
    is exactly the lines [start_line .. end_line], the line ranges of two
    sections with different names do not overlap, and the brace counter,
    which starts at 1 after the opening line (whose own braces are not
    counted), stays positive before [end_line] and is [<= 0] after it unless
    [end_line] is the last input line. *)
Theorem C7_sections_span_disjoint (lines : list string) :
  exists m, identify_sections lines = Some m /\
    (forall k s, dict_get k m = Some s -> spans lines s /\ counter_discipline lines s) /\
    (forall k1 s1 k2 s2, dict_get k1 m = Some s1 -> dict_get k2 m = Some s2 ->
       k1 <> k2 -> disjoint s1 s2).
Proof.
  destruct (identify_sections_spec lines) as (m & Hm & H1 & H2).
  exists m. split; [exact Hm|]. split.
  - intros k s Hk. destruct (H1 k s (dict_get_In _ _ _ Hk)) as (_ & ? & ?). auto.
  - intros k1 s1 k2 s2 Hk1 Hk2. apply H2; apply dict_get_In; assumption.
Qed.

(** Claim C10: the scanner is total.  Both loops finish within the bound
    [identify_sections] gives them (the index grows on every iteration), so
    a mapping is always returned; each section's content is the lines
    [start_line .. end_line], and a section whose block never closes (the
    counter stays positive through every following line) extends through
    the last input line. *)
Theorem C10_identify_sections_total (lines : list string) :
  exists m, identify_sections lines = Some m /\
    forall k s, dict_get k m = Some s ->
      content s = seg lines (start_line s) (S (end_line s)) /\
      ((forall j, start_line s < j <= length lines ->
          (0 < 1 + net_sum (seg lines (S (start_line s)) j))%Z) ->
       end_line s = length lines - 1 /\ content s = skipn (start_line s) lines).
Proof.
  destruct (identify_sections_spec lines) as (m & Hm & H1 & _).
  exists m. split; [exact Hm|].
  intros k s Hk. destruct (H1 k s (dict_get_In _ _ _ Hk)) as (_ & [Hr Hc] & [_ Hend]).
  split; [exact Hc|].
  intros Hopen.
  assert (Hlast : end_line s = length lines - 1).
  { destruct Hend as [Hle|Heq]; [|exact Heq].
    specialize (Hopen (S (end_line s)) ltac:(lia)). lia. }
  split; [exact Hlast|].
  rewrite Hc. replace (S (end_line s)) with (length lines) by lia.
  apply seg_to_end.
Qed.

(* ------------------------------------------------------------------ *)
(** ** Meaningful lines *)

(** Claim C4 (amended): a line is kept, trimmed, exactly when after
    trimming it is non-empty, does not start with [//], [/*], [{] or [}],
    and does not end with [{] or [}]; so a line that ends with a brace is
    dropped even when it carries other content. *)
Theorem C4_meaningful_filter (section_content : list string) (x : string) :
  In x (extract_content_lines section_content) <->
  exists l, In l section_content /\ x = strip l /\
    x <> "" /\ startswith "//" x = false /\ startswith "/*" x = false /\
    startswith "{" x = false /\ startswith "}" x = false /\
    endswith "{" x = false /\ endswith "}" x = false.
Proof.
  unfold extract_content_lines. rewrite filter_In, in_map_iff.
  unfold meaningful. rewrite !andb_true_iff, !negb_true_iff.
  split.
  - intros [[l [<- Hl]] [[[[[[H1 H2] H3] H4] H5] H6] H7]].
    exists l. repeat split; auto.
    intros E. rewrite E in H1. discriminate.
  - intros (l & Hl & -> & H1 & H2 & H3 & H4 & H5 & H6 & H7).
    split; [exists l; auto|].
    repeat split; auto. apply String.eqb_neq. exact H1.
Qed.

(* ------------------------------------------------------------------ *)
(** ** Common-section step: nothing new, nothing written *)

Lemma new_content_of_nil (sc tc : list string) :
  (forall x, In x sc -> In x tc) -> new_content_of sc tc = [].
Proof.
  unfold new_content_of. induction sc as [|x sc IH]; intros H; simpl; [reflexivity|].
  rewrite bool_decide_eq_true_2.
  - simpl. apply IH. intros y Hy. apply H. right; exact Hy.
  - apply list_elem_of_In. apply H. left; reflexivity.
Qed.

(** Claim C6: when every meaningful source line of a common section is
    among the meaningful lines of the target section, the common-section
    step leaves the migrator, hence the files and the change log, as it
    was. *)
Theorem C6_no_new_content_no_effect (st : Migrator) (section_name : string)
    (s t : GradleSection)
    (Hs : dict_get section_name (source_sections st) = Some s)
    (Ht : dict_get section_name (target_sections st) = Some t)
    (Hsub : forall x, In x (extract_content_lines (content s)) ->
                      In x (extract_content_lines (content t))) :
  fst (_migrate_existing_section section_name st) = st.
Proof.
  unfold _migrate_existing_section, bind, gets, dict_lookup. cbn beta iota.
  rewrite Hs. unfold ret. cbn beta iota. rewrite Ht. cbn beta iota.
  unfold read_gradle_file.
  destruct (files st !! build_target_gradle_path st); [|reflexivity].
  rewrite (new_content_of_nil _ _ Hsub). reflexivity.
Qed.

(* ------------------------------------------------------------------ *)
(** ** A missing input file *)

(** Claim C8: when the source or the target file does not exist, the run
    stops in [parse_gradle_files] with a file-not-found error naming the
    missing path, reported as the run's result; no file is written and no
    change is recorded. *)
Theorem C8_missing_file_fails_before_mutation
    (set_iter : list string -> list string) (src tgt : string)
    (fs : gmap string string) (Hmissing : fs !! src = None \/ fs !! tgt = None) :
  exists p st',
    run_migration set_iter (init_migrator src tgt fs) =
      (st', inr ("Migration failed with error: " +:+
                 ("Error reading Gradle file: " +:+ ("File not found: " +:+ p)))) /\
    (p = src \/ p = tgt) /\ fs !! p = None /\
    files st' = fs /\ migration_changes st' = [].
Proof.
  unfold run_migration, parse_gradle_files, try_except, bind, gets, modify,
    read_gradle_file, init_migrator.
  cbn [files build_source_gradle_path build_target_gradle_path].
  destruct (fs !! src) as [stext|] eqn:Hsrc.
  - destruct Hmissing as [H|Htgt]; [congruence|].
    cbn [set_source_sections files build_target_gradle_path].
    rewrite Htgt. cbn beta iota.
    eexists tgt, _. split; [reflexivity|]. auto.
  - cbn beta iota. eexists src, _. split; [reflexivity|]. auto.
Qed.

(* ------------------------------------------------------------------ *)
(** ** New-section step *)

Lemma last_closing_brace_none (lines : list string) (k : nat) :
  last_closing_brace lines k = None -> forall j, j < k -> strip (nth j lines "") <> "}".
Proof.
  induction k as [|k IH]; simpl; intros H j Hj; [lia|].
  destruct (String.eqb_spec (strip (nth k lines "")) "}") as [_|Hne]; [discriminate|].
  destruct (Nat.eq_dec j k) as [->|]; [exact Hne|]. apply IH; [exact H|lia].
Qed.

Lemma last_closing_brace_some (lines : list string) (k i : nat) :
  last_closing_brace lines k = Some i ->
  i < k /\ strip (nth i lines "") = "}" /\
  forall j, i < j < k -> strip (nth j lines "") <> "}".
Proof.
  induction k as [|k IH]; simpl; intros H; [discriminate|].
  destruct (String.eqb_spec (strip (nth k lines "")) "}") as [E|Hne].
  - injection H as <-. split; [lia|]. split; [exact E|]. intros; lia.
  - destruct (IH H) as (Hi & Hc & Hafter). split; [lia|]. split; [exact Hc|].
    intros j Hj. destruct (Nat.eq_dec j k) as [->|]; [exact Hne|]. apply Hafter; lia.
Qed.

(** Claim C5: the new-section step inserts, at the last line of the
    current target file that trims to exactly [}] (or at the end of the file
    when there is none), the marker line, the source section's whole
    content and a newline line, writes the file, and records an [ADD]
    change whose first detail states the number of content lines. *)
Theorem C5_new_section_inserted (st : Migrator) (section_name : string)
    (s : GradleSection) (text : string)
    (Hs : dict_get section_name (source_sections st) = Some s)
    (Htext : files st !! build_target_gradle_path st = Some text) :
  let P := readlines text in
  let pos := new_section_insert_position P in
  ((pos = length P /\ forall l, In l P -> strip l <> "}") \/
   (pos < length P /\ strip (nth pos P "") = "}" /\
    forall j, pos < j < length P -> strip (nth j P "") <> "}")) /\
  exists st', _migrate_new_section section_name st = (st', inr tt) /\
    files st' = <[build_target_gradle_path st :=
                  writelines (firstn pos P ++ [migration_comment_new] ++ content s
                              ++ [nl] ++ skipn pos P)]> (files st) /\
    migration_changes st' = migration_changes st ++
      [{| section_name := section_name;
          change_type := "ADD";
          description := "Added new section '" +:+ section_name +:+ "' from source project";
          details := ("Added complete section with "
                      +:+ pretty (length (content s)) +:+ " lines")
                     :: extract_content_lines (content s) |}].
Proof.
  intros P pos. split.
  - unfold pos, new_section_insert_position.
    destruct (last_closing_brace P (length P)) as [i|] eqn:Hl.
    + right. apply last_closing_brace_some. exact Hl.
    + left. split; [reflexivity|]. intros l Hin.
      destruct (In_nth P l "" Hin) as (j & Hj & <-).
      apply (last_closing_brace_none P (length P) Hl). exact Hj.
  - unfold _migrate_new_section, bind, gets, dict_lookup, read_gradle_file.
    cbn beta iota. rewrite Hs. unfold ret. cbn beta iota.
    rewrite Htext. cbn beta iota.
    eexists. split; [reflexivity|]. split; [|reflexivity].
    cbn. unfold slice_insert. simpl. rewrite <- !app_assoc. reflexivity.
Qed.

(* ------------------------------------------------------------------ *)
(** ** The change log does not depend on the file, only on the order *)

Lemma for_each_log (xs : list string) (f : string -> M unit)
    (g : string -> list MigrationChange) (Q : Migrator -> Prop) :
  (forall x st, In x xs -> Q st ->
     exists st', f x st = (st', inr tt) /\ Q st' /\
       migration_changes st' = migration_changes st ++ g x) ->
  forall st, Q st ->
    exists st', for_each xs f st = (st', inr tt) /\ Q st' /\
      migration_changes st' = migration_changes st ++ flat_map g xs.
Proof.
  intros Hf. induction xs as [|x xs IH]; intros st HQ.
  - exists st. simpl. rewrite app_nil_r. auto.
  - destruct (Hf x st (or_introl eq_refl) HQ) as (st1 & Hrun1 & HQ1 & Hc1).
    destruct (IH (fun y st0 Hy => Hf y st0 (or_intror Hy)) st1 HQ1)
      as (st2 & Hrun2 & HQ2 & Hc2).
    exists st2. simpl. unfold bind. rewrite Hrun1. split; [exact Hrun2|].
    split; [exact HQ2|]. rewrite Hc2, Hc1, app_assoc. reflexivity.
Qed.

Lemma dict_get_keys (k : string) (d : Sections) :
  In k (dict_keys d) -> exists v, dict_get k d = Some v.
Proof.
  induction d as [|[k0 v0] d IH]; simpl; [tauto|].
  destruct (String.eqb_spec k k0) as [->|Hne]; [eauto|].
  intros [E|H]; [congruence|exact (IH H)].
Qed.

Lemma write_lines_inv (src tgt : Sections) (st : Migrator) (lines : list string) :
  merge_inv src tgt st ->
  merge_inv src tgt (set_files (<[build_target_gradle_path st := writelines lines]> (files st)) st).
Proof.
  intros (Hs & Ht & _). unfold merge_inv, set_files; simpl.
  split; [exact Hs|]. split; [exact Ht|].
  rewrite lookup_insert_eq. eexists; reflexivity.
Qed.

Lemma new_section_step (src tgt : Sections) (n : string) (st : Migrator) :
  In n (dict_keys src) -> merge_inv src tgt st ->
  exists st', _migrate_new_section n st = (st', inr tt) /\ merge_inv src tgt st' /\
    migration_changes st' = migration_changes st ++ add_record src n.
Proof.
  intros Hn HQ. destruct (dict_get_keys n src Hn) as [s Hs].
  pose proof HQ as (Hsrc & _ & [text Htext]).
  unfold _migrate_new_section, bind, gets, dict_lookup, read_gradle_file.
  cbn beta iota. rewrite Hsrc, Hs. unfold ret. cbn beta iota.
  rewrite Htext. cbn beta iota.
  eexists. split; [reflexivity|]. split.
  - apply write_lines_inv. exact HQ.
  - unfold add_record. rewrite Hs. reflexivity.
Qed.

Lemma existing_section_step (src tgt : Sections) (n : string) (st : Migrator) :
  In n (dict_keys src) -> In n (dict_keys tgt) -> merge_inv src tgt st ->
  exists st', _migrate_existing_section n st = (st', inr tt) /\ merge_inv src tgt st' /\
    migration_changes st' = migration_changes st ++ update_record src tgt n.
Proof.
  intros Hn1 Hn2 HQ.
  destruct (dict_get_keys n src Hn1) as [s Hs].
  destruct (dict_get_keys n tgt Hn2) as [t Ht].
  pose proof HQ as (Hsrc & Htgt & [text Htext]).
  unfold _migrate_existing_section, bind, gets, dict_lookup, read_gradle_file.
  cbn beta iota. rewrite Hsrc, Hs. unfold ret. cbn beta iota.
  rewrite Htgt, Ht. cbn beta iota. rewrite Htext. cbn beta iota.
  unfold update_record. rewrite Hs, Ht.
  destruct (new_content_of _ _) as [|c nc].
  - eexists. split; [reflexivity|]. rewrite app_nil_r. auto.
  - eexists. split; [reflexivity|]. split; [|reflexivity].
    apply write_lines_inv. exact HQ.
Qed.

Lemma migrate_sections_log (set_iter : list string -> list string)
    (Hperm : forall l, Permutation (set_iter l) l) (st : Migrator)
    (Htgt : is_Some (files st !! build_target_gradle_path st)) :
  exists st', migrate_sections set_iter st = (st', inr tt) /\
    migration_changes st' = migration_changes st
      ++ flat_map (add_record (source_sections st))
           (set_iter (source_only_names (source_sections st) (target_sections st)))
      ++ flat_map (update_record (source_sections st) (target_sections st))
           (set_iter (common_names (source_sections st) (target_sections st))).
Proof.
  set (S0 := source_sections st). set (T0 := target_sections st).
  assert (HQ : merge_inv S0 T0 st) by (split; [reflexivity|split; [reflexivity|exact Htgt]]).
  destruct (for_each_log (set_iter (source_only_names S0 T0)) _migrate_new_section
              (add_record S0) (merge_inv S0 T0)) with (st := st)
    as (st1 & Hrun1 & HQ1 & Hc1); [|exact HQ|].
  { intros x st0 Hx HQ0. apply new_section_step; [|exact HQ0].
    apply (Permutation_in _ (Hperm _)) in Hx.
    unfold source_only_names in Hx. apply filter_In in Hx. tauto. }
  pose proof HQ1 as (Hs1 & Ht1 & _).
  destruct (for_each_log (set_iter (common_names S0 T0)) _migrate_existing_section
              (update_record S0 T0) (merge_inv S0 T0)) with (st := st1)
    as (st2 & Hrun2 & HQ2 & Hc2); [|exact HQ1|].
  { intros x st0 Hx HQ0. apply (Permutation_in _ (Hperm _)) in Hx.
    unfold common_names in Hx. apply filter_In in Hx as [Hx1 Hx2].
    apply existing_section_step; [exact Hx1| |exact HQ0].
    apply bool_decide_eq_true_1 in Hx2. apply list_elem_of_In. exact Hx2. }
  exists st2. unfold migrate_sections, bind, gets. cbn beta iota.
  fold S0 T0. rewrite Hrun1. cbn beta iota. rewrite Hs1, Ht1, Hrun2.
  split; [reflexivity|]. rewrite Hc2, Hc1, app_assoc. reflexivity.
Qed.

(** Claim C2 (amended): the source-only names and then the common names
    are iterated in Python set order, which can differ between runs; for
    every such order the change log is a permutation of the log produced
    in first-seen order, since each record depends on the two parsed
    mappings only. *)
Theorem C2_change_log_permutation (set_iter : list string -> list string)
    (Hperm : forall l, Permutation (set_iter l) l) (st : Migrator)
    (Htgt : is_Some (files st !! build_target_gradle_path st)) :
  exists st1 st2,
    migrate_sections set_iter st = (st1, inr tt) /\
    migrate_sections id st = (st2, inr tt) /\
    Permutation (migration_changes st1) (migration_changes st2).
Proof.
  destruct (migrate_sections_log set_iter Hperm st Htgt) as (st1 & Hrun1 & Hc1).
  destruct (migrate_sections_log id (fun l => Permutation_refl l) st Htgt)
    as (st2 & Hrun2 & Hc2).
  exists st1, st2. split; [exact Hrun1|]. split; [exact Hrun2|].
  rewrite Hc1, Hc2. apply Permutation_app_head. unfold id.
  apply Permutation_app; apply Permutation_flat_map; apply Hperm.
Qed.

(* ------------------------------------------------------------------ *)
(** ** Witnesses *)

Lemma C2_change_log_permutation_witness :
  exists st1 st2,
    migrate_sections (@rev string) (parsed c2_source c2_target) = (st1, inr tt) /\
    migrate_sections id (parsed c2_source c2_target) = (st2, inr tt) /\
    Permutation (migration_changes st1) (migration_changes st2).
Proof.
  apply (C2_change_log_permutation (@rev string)
           (fun l => Permutation_sym (Permutation_rev l))).
  vm_compute. eexists; reflexivity.
Defined.

Lemma C5_new_section_inserted_witness :
  let st := parsed c2_source c2_target in
  let P := readlines c2_target in
  let pos := new_section_insert_position P in
  ((pos = length P /\ forall l, In l P -> strip l <> "}") \/
   (pos < length P /\ strip (nth pos P "") = "}" /\
    forall j, pos < j < length P -> strip (nth j P "") <> "}")) /\
  exists st', _migrate_new_section "ext" st = (st', inr tt) /\
    files st' = <[build_target_gradle_path st :=
                  writelines (firstn pos P ++ [migration_comment_new]
                              ++ ["ext {" +:+ nl; "  springVersion = '6.1'" +:+ nl; "}" +:+ nl]
                              ++ [nl] ++ skipn pos P)]> (files st) /\
    migration_changes st' = migration_changes st ++
      [{| section_name := "ext";
          change_type := "ADD";
          description := "Added new section '" +:+ "ext" +:+ "' from source project";
          details := ("Added complete section with " +:+ pretty 3 +:+ " lines")
                     :: extract_content_lines
                          ["ext {" +:+ nl; "  springVersion = '6.1'" +:+ nl; "}" +:+ nl] |}].
Proof.
  apply (C5_new_section_inserted (parsed c2_source c2_target) "ext"
           {| name := "ext";
              content := ["ext {" +:+ nl; "  springVersion = '6.1'" +:+ nl; "}" +:+ nl];
              start_line := 3; end_line := 5; section_type := CUSTOM;
              indentation := "" |} c2_target);
    vm_compute; reflexivity.
Defined.

Lemma C6_no_new_content_no_effect_witness :
  fst (_migrate_existing_section "dependencies" (parsed c6_source c6_target))
  = parsed c6_source c6_target.
Proof.
  eapply C6_no_new_content_no_effect.
  - vm_compute. reflexivity.
  - vm_compute. reflexivity.
  - vm_compute. intros x Hx. tauto.
Defined.

Lemma C8_missing_file_fails_before_mutation_witness :
  exists p st',
    run_migration id (init_migrator "src.gradle" "missing.gradle"
                        (two_files c1_source c1_target)) =
      (st', inr ("Migration failed with error: " +:+
                 ("Error reading Gradle file: " +:+ ("File not found: " +:+ p)))) /\
    (p = "src.gradle" \/ p = "missing.gradle") /\
    two_files c1_source c1_target !! p = None /\
    files st' = two_files c1_source c1_target /\ migration_changes st' = [].
Proof.
  apply C8_missing_file_fails_before_mutation. right. vm_compute. reflexivity.
Defined.

(* ------------------------------------------------------------------ *)
(** ** The duplicate check inspects a mapping with distinct keys *)

Lemma dict_set_keys_In (k x : string) (v : GradleSection) (d : Sections) :
  In x (dict_keys (dict_set k v d)) -> x = k \/ In x (dict_keys d).
Proof.
  unfold dict_keys. intros Hx. apply in_map_iff in Hx as [[k' v'] [<- Hin]].
  apply dict_set_In in Hin as [E|Hin].
  - injection E as -> ->. left; reflexivity.
  - right. apply in_map_iff. exists (k', v'). auto.
Qed.

Lemma dict_set_NoDup (k : string) (v : GradleSection) (d : Sections) :
  NoDup (dict_keys d) -> NoDup (dict_keys (dict_set k v d)).
Proof.
  induction d as [|[k0 v0] d IH]; unfold dict_keys in *; simpl; intros Hnd.
  - constructor; [apply not_elem_of_nil|constructor].
  - inversion Hnd as [|? ? Hnot Hnd']; subst.
    destruct (String.eqb_spec k k0) as [->|Hne]; simpl.
    + constructor; assumption.
    + constructor; [|exact (IH Hnd')].
      intros Hin. rewrite list_elem_of_In in Hin, Hnot.
      apply (dict_set_keys_In k k0 v d) in Hin as [E|E]; [congruence|contradiction].
Qed.

Lemma scan_sections_NoDup (fuel : nat) (lines : list string) (i : nat) (m m' : Sections) :
  scan_sections fuel lines i m = Some m' -> NoDup (dict_keys m) -> NoDup (dict_keys m').
Proof.
  revert i m. induction fuel as [|fuel IH]; intros i m Hrun Hnd; cbn [scan_sections] in Hrun;
    [discriminate|].
  destruct (i <? length lines); [|congruence].
  destruct (skip_line (strip (nth i lines ""))); [exact (IH _ _ Hrun Hnd)|].
  destruct (section_match (strip (nth i lines ""))) as [section_name|];
    [|exact (IH _ _ Hrun Hnd)].
  destruct (find_section_end (S (length lines)) lines (S i) 1%Z [nth i lines ""])
    as [[[i' bc'] c]|]; [|discriminate].
  apply (IH _ _ Hrun). apply dict_set_NoDup. exact Hnd.
Qed.

Lemma filter_eqb_absent (y : string) (xs : list string) :
  ~ In y xs -> List.filter (String.eqb y) xs = [].
Proof.
  induction xs as [|z xs IH]; simpl; intros Hnot; [reflexivity|].
  destruct (String.eqb_spec y z) as [->|_]; [tauto|].
  apply IH. tauto.
Qed.

Lemma count_occ_str_NoDup (xs : list string) (x : string) :
  NoDup xs -> count_occ_str xs x <= 1.
Proof.
  unfold count_occ_str. induction xs as [|y xs IH]; simpl; intros Hnd; [lia|].
  inversion Hnd as [|? ? Hnot Hnd']; subst.
  destruct (String.eqb_spec x y) as [->|_]; simpl; [|exact (IH Hnd')].
  rewrite list_elem_of_In in Hnot. rewrite (filter_eqb_absent y xs Hnot). simpl. lia.
Qed.

(** In [validate_gradle_structure] the list of duplicated names is empty
    for every file: the names are read from a mapping with distinct keys. *)
Lemma duplicates_always_empty (set_iter : list string -> list string)
    (target_lines : list string) :
  let section_names := map (fun p => name (snd p)) (sections_of target_lines) in
  List.filter (fun n => 1 <? count_occ_str section_names n)
    (set_iter (dedup section_names)) = [].
Proof.
  intros section_names.
  destruct (identify_sections_spec target_lines) as (m & Hm & H1 & _).
  assert (Hnames : section_names = dict_keys m).
  { unfold section_names, sections_of. rewrite Hm. simpl. unfold dict_keys.
    apply map_ext_in. intros [k s] Hin. simpl. exact (proj1 (H1 k s Hin)). }
  assert (Hnd : NoDup section_names).
  { rewrite Hnames. unfold identify_sections in Hm.
    apply (scan_sections_NoDup _ _ _ _ _ Hm). constructor. }
  induction (set_iter (dedup section_names)) as [|n ns IH]; simpl; [reflexivity|].
  pose proof (count_occ_str_NoDup section_names n Hnd).
  destruct (1 <? count_occ_str section_names n) eqn:E; [apply Nat.ltb_lt in E; lia|].
  exact IH.
Qed.

(** Each merge step inserts into the list of lines it read: that list is a
    sublist of the list it writes. *)
Lemma slice_insert_sublist {A} (i : nat) (xs l : list A) :
  l `sublist_of` slice_insert i xs l.
Proof.
  unfold slice_insert. rewrite <- (take_drop i l) at 1.
  apply sublist_app; [reflexivity|]. apply sublist_inserts_l. reflexivity.
Qed.

(* ================================================================== *)
(** * Further properties of the migrator *)

(* ------------------------------------------------------------------ *)
(** ** Reading and writing lines *)

Lemma list_ascii_of_string_append (a b : string) :
  list_ascii_of_string (a +:+ b) = list_ascii_of_string a ++ list_ascii_of_string b.
Proof.
  induction a as [|c a IH]; [reflexivity|].
  change (String c a +:+ b) with (String c (a +:+ b)). simpl. rewrite IH. reflexivity.
Qed.

Lemma string_of_list_ascii_app (l1 l2 : list ascii) :
  string_of_list_ascii (l1 ++ l2) = string_of_list_ascii l1 +:+ string_of_list_ascii l2.
Proof.
  induction l1 as [|c l1 IH]; [reflexivity|]. simpl. rewrite IH. reflexivity.
Qed.

Lemma concat_empty_cons (a : string) (l : list string) :
  String.concat "" (a :: l) = a +:+ String.concat "" l.
Proof.
  destruct l as [|b l].
  - simpl. induction a as [|c a IH]; [reflexivity|].
    change (String c a +:+ "") with (String c (a +:+ "")). rewrite <- IH. reflexivity.
  - reflexivity.
Qed.

Lemma readlines_go_concat (cur cs : list ascii) :
  String.concat "" (readlines_go cur cs) = string_of_list_ascii (rev cur ++ cs).
Proof.
  revert cur. induction cs as [|c cs IH]; intros cur; simpl.
  - destruct cur as [|d cur]; [reflexivity|]. simpl. rewrite app_nil_r. reflexivity.
  - destruct (Ascii.eqb c newline).
    + rewrite concat_empty_cons, IH. simpl.
      rewrite <- string_of_list_ascii_app, <- app_assoc. reflexivity.
    + rewrite IH. simpl. rewrite <- app_assoc. reflexivity.
Qed.

Lemma concat_readlines (text : string) :
  String.concat "" (readlines text) = text.
Proof.
  unfold readlines. rewrite readlines_go_concat. simpl.
  apply string_of_list_ascii_of_string.
Qed.

(** Extra: writing back the lines [readlines] returned gives the file's
    text unchanged, so a step that inserts nothing leaves the file as it
    was. *)
Theorem writelines_readlines (text : string) :
  writelines (readlines text) = text.
Proof. apply concat_readlines. Qed.

Lemma readlines_go_no_newline (cur cs rest : list ascii) :
  (forall c, In c cs -> c <> newline) ->
  readlines_go cur (cs ++ rest) = readlines_go (rev cs ++ cur) rest.
Proof.
  revert cur. induction cs as [|c cs IH]; intros cur Hcs; [reflexivity|].
  simpl. destruct (Ascii.eqb_spec c newline) as [E|_].
  - exfalso. exact (Hcs c (or_introl eq_refl) E).
  - rewrite IH by (intros d Hd; apply Hcs; right; exact Hd).
    rewrite <- app_assoc. reflexivity.
Qed.

(** Extra: when every line is newline-terminated and has no other
    newline, reading back what [writelines] wrote gives the same lines. *)
Theorem readlines_writelines (ls : list string) :
  Forall terminated_line ls -> readlines (writelines ls) = ls.
Proof.
  unfold readlines, writelines.
  induction 1 as [|l ls [s [-> Hs]] _ IH]; [reflexivity|].
  rewrite concat_empty_cons, !list_ascii_of_string_append.
  rewrite <- app_assoc, (readlines_go_no_newline [] _ _ Hs).
  simpl. rewrite IH, app_nil_r.
  rewrite rev_involutive, string_of_list_ascii_app, string_of_list_ascii_of_string.
  reflexivity.
Qed.

(* ------------------------------------------------------------------ *)
(** ** Scanner: where sections start *)

Lemma scan_sections_opens (fuel : nat) (lines : list string) (i : nat) (m m' : Sections) :
  scan_sections fuel lines i m = Some m' ->
  (forall k s, In (k, s) m -> opens_at lines k s) ->
  forall k s, In (k, s) m' -> opens_at lines k s.
Proof.
  revert i m. induction fuel as [|fuel IH]; intros i m Hrun Hm; cbn [scan_sections] in Hrun;
    [discriminate|].
  destruct (i <? length lines); [|injection Hrun as <-; exact Hm].
  destruct (skip_line (strip (nth i lines ""))) eqn:Hskip; [exact (IH _ _ Hrun Hm)|].
  destruct (section_match (strip (nth i lines ""))) as [section_name|] eqn:Hmatch;
    [|exact (IH _ _ Hrun Hm)].
  destruct (find_section_end (S (length lines)) lines (S i) 1%Z [nth i lines ""])
    as [[[i' bc'] c]|]; [|discriminate].
  apply (IH _ _ Hrun). intros k s Hin. apply dict_set_In in Hin as [E|Hin].
  - injection E as -> ->. unfold opens_at; simpl. auto.
  - exact (Hm k s Hin).
Qed.

(** Extra: every section the scanner returns is keyed by the identifier
    that opens its first line: that line, trimmed, is not blank or a
    comment, matches [identifier \s* {] with that identifier, and the
    section's type is the classification of the identifier. *)
Theorem identify_sections_opening_line (lines : list string) (m : Sections)
    (k : string) (s : GradleSection) :
  identify_sections lines = Some m -> dict_get k m = Some s ->
  name s = k /\ opens_at lines k s.
Proof.
  intros Hm Hk. apply dict_get_In in Hk.
  split.
  - destruct (identify_sections_spec lines) as (m' & Hm' & H1 & _).
    rewrite Hm in Hm'. injection Hm' as <-. exact (proj1 (H1 k s Hk)).
  - exact (scan_sections_opens _ _ _ _ _ Hm ltac:(intros ? ? [])  k s Hk).
Qed.

(* ------------------------------------------------------------------ *)
(** ** Validator: brace balance *)

Lemma char_net_cons (c : ascii) (cs : list ascii) :
  char_net (c :: cs) =
    ((if Ascii.eqb "{"%char c then 1 else if Ascii.eqb "}"%char c then -1 else 0)
     + char_net cs)%Z.
Proof.
  unfold char_net. cbn [List.filter].
  destruct (Ascii.eqb "{"%char c) eqn:E1, (Ascii.eqb "}"%char c) eqn:E2;
    cbn [length]; try lia.
  apply Ascii.eqb_eq in E1, E2. congruence.
Qed.

Lemma brace_scan_some (cs : list ascii) (n m : Z) :
  brace_scan cs n = Some m ->
  m = (n + char_net cs)%Z /\ forall k, (0 <= n + char_net (firstn k cs))%Z \/ (n < 0)%Z.
Proof.
  revert n. induction cs as [|c cs IH]; intros n H; simpl in H.
  - injection H as <-. unfold char_net; simpl. split; [lia|].
    intros k. destruct k; simpl; unfold char_net; simpl; lia.
  - rewrite char_net_cons.
    destruct (Ascii.eqb_spec c "{"%char) as [->|Hc1].
    + destruct (IH _ H) as [-> Hk]. simpl. split; [lia|].
      intros [|k]; simpl; [unfold char_net; simpl; lia|].
      rewrite char_net_cons. simpl. destruct (Hk k); lia.
    + destruct (Ascii.eqb_spec c "}"%char) as [->|Hc2].
      * destruct (n - 1 <? 0)%Z eqn:Hn; [discriminate|]. apply Z.ltb_ge in Hn.
        destruct (IH _ H) as [-> Hk]. simpl. split; [lia|].
        intros [|k]; simpl; [unfold char_net; simpl; lia|].
        rewrite char_net_cons. simpl. destruct (Hk k); lia.
      * destruct (IH _ H) as [-> Hk].
        assert (Hz : (if Ascii.eqb "{"%char c then 1 else if Ascii.eqb "}"%char c then -1 else 0)%Z = 0%Z).
        { destruct (Ascii.eqb_spec "{"%char c); [congruence|].
          destruct (Ascii.eqb_spec "}"%char c); [congruence|reflexivity]. }
        rewrite Hz. split; [lia|].
        intros [|k]; [simpl; unfold char_net; simpl; lia|].
        simpl. rewrite char_net_cons, Hz. destruct (Hk k); lia.
Qed.

Lemma brace_scan_none (cs : list ascii) (n : Z) :
  (0 <= n)%Z -> brace_scan cs n = None -> exists k, (n + char_net (firstn k cs) < 0)%Z.
Proof.
  revert n. induction cs as [|c cs IH]; intros n Hn H; simpl in H; [discriminate|].
  destruct (Ascii.eqb_spec c "{"%char) as [->|Hc1].
  - destruct (IH (n + 1)%Z ltac:(lia) H) as [k Hk]. exists (S k). simpl.
    rewrite char_net_cons. simpl. lia.
  - destruct (Ascii.eqb_spec c "}"%char) as [->|Hc2].
    + destruct (n - 1 <? 0)%Z eqn:E.
      * apply Z.ltb_lt in E. exists 1. simpl. rewrite char_net_cons. simpl.
        unfold char_net; simpl. lia.
      * apply Z.ltb_ge in E. destruct (IH (n - 1)%Z E H) as [k Hk]. exists (S k).
        simpl. rewrite char_net_cons. simpl. lia.
    + destruct (IH n Hn H) as [k Hk]. exists (S k). simpl. rewrite char_net_cons.
      destruct (Ascii.eqb_spec "{"%char c); [congruence|].
      destruct (Ascii.eqb_spec "}"%char c); [congruence|]. lia.
Qed.

Lemma validate_run (set_iter : list string -> list string) (st : Migrator) (text : string) :
  files st !! build_target_gradle_path st = Some text ->
  validate_gradle_structure set_iter st =
    match brace_scan (list_ascii_of_string text) 0%Z with
    | None => (add_validation_error "Unbalanced braces detected" st, inr false)
    | Some b =>
        if Z.eqb b 0 then (st, inr true)
        else (add_validation_error
                ("Unbalanced braces: " +:+ pretty b +:+ " unclosed braces") st, inr false)
    end.
Proof.
  intros Hf. unfold validate_gradle_structure, try_except, bind, gets, read_gradle_file.
  cbn beta iota. rewrite Hf. cbn beta iota. unfold join. rewrite concat_readlines.
  destruct (brace_scan (list_ascii_of_string text) 0%Z) as [b|]; [|reflexivity].
  destruct (Z.eqb b 0); [|reflexivity]. cbn [negb].
  rewrite duplicates_always_empty. reflexivity.
Qed.

Lemma validate_run_missing (set_iter : list string -> list string) (st : Migrator) :
  files st !! build_target_gradle_path st = None ->
  validate_gradle_structure set_iter st =
    (add_validation_error
       ("Validation error: File not found: " +:+ build_target_gradle_path st) st, inr false).
Proof.
  intros Hf. unfold validate_gradle_structure, try_except, bind, gets, read_gradle_file.
  cbn beta iota. rewrite Hf. reflexivity.
Qed.

Lemma char_net_count (s : string) :
  char_net (list_ascii_of_string s) = (Z.of_nat (count "{" s) - Z.of_nat (count "}" s))%Z.
Proof. reflexivity. Qed.

Lemma firstn_list_ascii_prefix (p q : string) :
  firstn (length (list_ascii_of_string p)) (list_ascii_of_string (p +:+ q)) =
    list_ascii_of_string p.
Proof.
  rewrite list_ascii_of_string_append, firstn_app, Nat.sub_diag, firstn_O, app_nil_r.
  apply firstn_all.
Qed.

(** Extra: on an existing target file, validation passes exactly when the
    text has as many closing as opening braces and no prefix of it closes
    more braces than it opens; the duplicate-section check never fails. *)
Theorem validate_passes_iff_balanced (set_iter : list string -> list string)
    (st : Migrator) (text : string) :
  files st !! build_target_gradle_path st = Some text ->
  (snd (validate_gradle_structure set_iter st) = inr true <->
   count "{" text = count "}" text /\
   forall p q, p +:+ q = text -> count "}" p <= count "{" p).
Proof.
  intros Hf. rewrite (validate_run set_iter st text Hf).
  set (cs := list_ascii_of_string text).
  split.
  - destruct (brace_scan cs 0%Z) as [b|] eqn:Hb; [|discriminate].
    destruct (Z.eqb_spec b 0) as [->|]; [|discriminate]. intros _.
    destruct (brace_scan_some _ _ _ Hb) as [Htot Hpre].
    unfold cs in Htot. rewrite char_net_count in Htot. split; [lia|].
    intros p q <-. destruct (Hpre (length (list_ascii_of_string p))) as [H|H]; [|lia].
    unfold cs in H. rewrite firstn_list_ascii_prefix, char_net_count in H. lia.
  - intros [Htot Hpre].
    destruct (brace_scan cs 0%Z) as [b|] eqn:Hb.
    + destruct (brace_scan_some _ _ _ Hb) as [Hb' _].
      unfold cs in Hb'. rewrite char_net_count in Hb'.
      replace (Z.eqb b 0) with true by (symmetry; apply Z.eqb_eq; lia). reflexivity.
    + exfalso. destruct (brace_scan_none _ _ (Z.le_refl 0) Hb) as [k Hk].
      specialize (Hpre (string_of_list_ascii (firstn k cs))
                       (string_of_list_ascii (skipn k cs))).
      rewrite <- string_of_list_ascii_app, firstn_skipn in Hpre.
      unfold cs in Hpre. rewrite string_of_list_ascii_of_string in Hpre.
      specialize (Hpre eq_refl).
      rewrite <- (list_ascii_of_string_of_list_ascii (firstn k cs)), char_net_count in Hk.
      fold cs in Hpre. lia.
Qed.

Lemma validate_frame_cases (set_iter : list string -> list string) (st : Migrator) :
  validate_gradle_structure set_iter st = (st, inr true) \/
  exists e, validate_gradle_structure set_iter st = (add_validation_error e st, inr false).
Proof.
  destruct (files st !! build_target_gradle_path st) as [text|] eqn:Hf.
  - rewrite (validate_run set_iter st text Hf).
    destruct (brace_scan (list_ascii_of_string text) 0%Z) as [b|].
    + destruct (Z.eqb b 0); [left; reflexivity|right; eauto].
    + right; eauto.
  - rewrite (validate_run_missing set_iter st Hf). right; eauto.
Qed.

(** Extra: validation never raises and changes nothing but the error
    list: when it passes the object is unchanged, and when it fails it
    appends exactly one message to [validation_errors]. *)
Theorem validate_frame (set_iter : list string -> list string) (st : Migrator) :
  validate_gradle_structure set_iter st = (st, inr true) \/
  exists e, validate_gradle_structure set_iter st = (add_validation_error e st, inr false).
Proof. apply validate_frame_cases. Qed.

(** Extra: when the target file is missing, validation fails with the
    message "Validation error: File not found: <path>" instead of
    raising. *)
Theorem validate_missing_target (set_iter : list string -> list string) (st : Migrator) :
  files st !! build_target_gradle_path st = None ->
  snd (validate_gradle_structure set_iter st) = inr false /\
  validation_errors (fst (validate_gradle_structure set_iter st)) =
    validation_errors st ++
      ["Validation error: File not found: " +:+ build_target_gradle_path st].
Proof.
  intros Hf. rewrite (validate_run_missing set_iter st Hf). split; reflexivity.
Qed.

(* ------------------------------------------------------------------ *)
(** ** Merge engine: what a run may change *)

Lemma step_frame_refl (st : Migrator) : step_frame st st.
Proof.
  unfold step_frame. repeat split; auto. intros text Ht. exists text. split; [exact Ht|reflexivity].
Qed.

Lemma step_frame_trans (st1 st2 st3 : Migrator) :
  step_frame st1 st2 -> step_frame st2 st3 -> step_frame st1 st3.
Proof.
  intros (A1 & B1 & C1 & D1 & E1 & F1 & G1) (A2 & B2 & C2 & D2 & E2 & F2 & G2).
  unfold step_frame. rewrite B1 in F2, G2.
  repeat split; try congruence.
  - intros p Hp. rewrite F2, F1 by exact Hp. reflexivity.
  - intros text Ht. destruct (G1 text Ht) as (text2 & Ht2 & Hs2).
    destruct (G2 text2 Ht2) as (text3 & Ht3 & Hs3).
    exists text3. split; [exact Ht3|]. etransitivity; eassumption.
Qed.

Lemma concat_chars (ls : list string) :
  list_ascii_of_string (String.concat "" ls) = List.concat (map list_ascii_of_string ls).
Proof.
  induction ls as [|l ls IH]; [reflexivity|].
  rewrite concat_empty_cons, list_ascii_of_string_append, IH. reflexivity.
Qed.

Lemma sublist_concat_chars (l1 l2 : list string) :
  sublist l1 l2 ->
  sublist (list_ascii_of_string (String.concat "" l1))
          (list_ascii_of_string (String.concat "" l2)).
Proof.
  rewrite !concat_chars. induction 1 as [|x l1 l2 _ IH|x l1 l2 _ IH]; simpl.
  - reflexivity.
  - apply sublist_app; [reflexivity|exact IH].
  - apply sublist_inserts_l. exact IH.
Qed.

Lemma write_change_frame (st : Migrator) (text : string) (L : list string)
    (c : MigrationChange) :
  files st !! build_target_gradle_path st = Some text ->
  sublist (readlines text) L ->
  step_frame st (add_change c
    (set_files (<[build_target_gradle_path st := writelines L]> (files st)) st)).
Proof.
  intros Ht HL. unfold step_frame, add_change, set_files; simpl.
  repeat split; auto.
  - intros p Hp. apply lookup_insert_ne. congruence.
  - intros text0 Ht0. rewrite Ht in Ht0. injection Ht0 as <-.
    eexists. rewrite lookup_insert_eq. split; [reflexivity|].
    rewrite <- (concat_readlines text) at 1. apply sublist_concat_chars. exact HL.
Qed.

Lemma list_insert_sublist {A} (i : nat) (x : A) (l : list A) :
  sublist l (list_insert i x l).
Proof.
  unfold list_insert. rewrite <- (take_drop i l) at 1.
  apply sublist_app; [reflexivity|]. apply sublist_cons. reflexivity.
Qed.

Lemma new_section_frame (n : string) (st : Migrator) :
  step_frame st (fst (_migrate_new_section n st)).
Proof.
  unfold _migrate_new_section, bind, gets, dict_lookup, read_gradle_file.
  cbn beta iota. destruct (dict_get n (source_sections st)) as [s|];
    [|apply step_frame_refl].
  unfold ret. cbn beta iota.
  destruct (files st !! build_target_gradle_path st) as [text|] eqn:Ht;
    [|apply step_frame_refl].
  cbn beta iota. unfold write_lines, modify. cbn beta iota.
  apply (write_change_frame st text); [exact Ht|]. apply slice_insert_sublist.
Qed.

Lemma existing_section_frame (n : string) (st : Migrator) :
  step_frame st (fst (_migrate_existing_section n st)).
Proof.
  unfold _migrate_existing_section, bind, gets, dict_lookup, read_gradle_file.
  cbn beta iota. destruct (dict_get n (source_sections st)) as [s|];
    [|apply step_frame_refl].
  unfold ret. cbn beta iota.
  destruct (dict_get n (target_sections st)) as [t|]; [|apply step_frame_refl].
  cbn beta iota.
  destruct (files st !! build_target_gradle_path st) as [text|] eqn:Ht;
    [|apply step_frame_refl].
  cbn beta iota.
  destruct (new_content_of _ _) as [|c0 nc]; [apply step_frame_refl|].
  unfold write_lines, modify. cbn beta iota.
  apply (write_change_frame st text); [exact Ht|].
  etransitivity; [apply list_insert_sublist|apply slice_insert_sublist].
Qed.

Lemma for_each_frame (xs : list string) (f : string -> M unit) :
  (forall x st, step_frame st (fst (f x st))) ->
  forall st, step_frame st (fst (for_each xs f st)).
Proof.
  intros Hf. induction xs as [|x xs IH]; intros st; simpl; [apply step_frame_refl|].
  unfold bind. specialize (Hf x st).
  destruct (f x st) as [st1 [e|[]]]; simpl in *; [exact Hf|].
  eapply step_frame_trans; [exact Hf|apply IH].
Qed.

Lemma migrate_sections_frame (set_iter : list string -> list string) (st : Migrator) :
  step_frame st (fst (migrate_sections set_iter st)).
Proof.
  unfold migrate_sections, bind, gets. cbn beta iota.
  pose proof (for_each_frame
                (set_iter (source_only_names (source_sections st) (target_sections st)))
                _migrate_new_section new_section_frame st) as H1.
  destruct (for_each _ _ st) as [st1 [e|[]]]; simpl in *; [exact H1|].
  eapply step_frame_trans; [exact H1|]. apply for_each_frame, existing_section_frame.
Qed.

Lemma add_record_names (src : Sections) (xs : list string) :
  (forall x, In x xs -> In x (dict_keys src)) ->
  map section_name (flat_map (add_record src) xs) = xs.
Proof.
  induction xs as [|x xs IH]; intros Hin; [reflexivity|].
  destruct (dict_get_keys x src (Hin x (or_introl eq_refl))) as [s Hs].
  simpl. unfold add_record at 1. rewrite Hs. simpl. f_equal.
  apply IH. intros y Hy. apply Hin. right. exact Hy.
Qed.

Lemma add_record_types (src : Sections) (xs : list string) :
  Forall (fun c => change_type c = "ADD") (flat_map (add_record src) xs).
Proof.
  apply List.Forall_forall. intros c Hc. apply in_flat_map in Hc as (x & _ & Hc).
  unfold add_record in Hc. destruct (dict_get x src); simpl in Hc; [|tauto].
  destruct Hc as [<-|[]]. reflexivity.
Qed.

Lemma update_record_ok (src tgt : Sections) (xs : list string) :
  Forall (fun c => change_type c = "UPDATE" /\ In (section_name c) xs /\
                   update_detail_ok src tgt c)
    (flat_map (update_record src tgt) xs).
Proof.
  apply List.Forall_forall. intros c Hc. apply in_flat_map in Hc as (x & Hx & Hc).
  unfold update_record in Hc.
  destruct (dict_get x src) as [s|] eqn:Hs; [|simpl in Hc; tauto].
  destruct (dict_get x tgt) as [t|] eqn:Ht; [|simpl in Hc; tauto].
  destruct (new_content_of _ _) as [|d0 nc] eqn:Hnc; simpl in Hc; [tauto|].
  destruct Hc as [<-|[]]. simpl. split; [reflexivity|]. split; [exact Hx|].
  exists s, t. simpl. split; [exact Hs|]. split; [exact Ht|]. split; [discriminate|].
  rewrite <- Hnc. apply List.Forall_forall. intros d Hd.
  unfold new_content_of in Hd. apply filter_In in Hd as [Hd1 Hd2].
  split; [exact Hd1|]. intros Hin. apply negb_true_iff, bool_decide_eq_false_1 in Hd2.
  apply Hd2. apply list_elem_of_In. exact Hin.
Qed.

(** Extra: when the target file exists, [migrate_sections] appends to the
    change log first one ADD record per source-only section (in some
    order) and then UPDATE records, each for a common section, listing
    only source lines the target section lacks, and never an empty one. *)
Theorem migrate_sections_change_log (set_iter : list string -> list string)
    (Hperm : forall l, Permutation (set_iter l) l) (st : Migrator)
    (Htgt : is_Some (files st !! build_target_gradle_path st)) :
  exists st' adds upds,
    migrate_sections set_iter st = (st', inr tt) /\
    migration_changes st' = migration_changes st ++ adds ++ upds /\
    Permutation (map section_name adds)
      (source_only_names (source_sections st) (target_sections st)) /\
    Forall (fun c => change_type c = "ADD") adds /\
    Forall (fun c => change_type c = "UPDATE" /\
                     In (section_name c) (common_names (source_sections st) (target_sections st)) /\
                     update_detail_ok (source_sections st) (target_sections st) c) upds.
Proof.
  destruct (migrate_sections_log set_iter Hperm st Htgt) as (st' & Hrun & Hlog).
  set (S0 := source_sections st) in *. set (T0 := target_sections st) in *.
  exists st', (flat_map (add_record S0) (set_iter (source_only_names S0 T0))),
    (flat_map (update_record S0 T0) (set_iter (common_names S0 T0))).
  split; [exact Hrun|]. split; [exact Hlog|].
  split; [|split; [apply add_record_types|]].
  - rewrite add_record_names; [apply Hperm|].
    intros x Hx. apply (Permutation_in _ (Hperm _)) in Hx.
    unfold source_only_names in Hx. apply filter_In in Hx. tauto.
  - eapply Forall_impl; [apply update_record_ok|].
    intros c (H1 & H2 & H3). split; [exact H1|]. split; [|exact H3].
    exact (Permutation_in _ (Hperm _) H2).
Qed.

(** Extra: whatever the iteration order and even when a step raises,
    [migrate_sections] only inserts into the target file: every character
    of its text stays, in order; no other file, path, parsed mapping or
    validation error is changed. *)
Theorem migrate_sections_only_inserts (set_iter : list string -> list string)
    (st : Migrator) :
  step_frame st (fst (migrate_sections set_iter st)).
Proof. apply migrate_sections_frame. Qed.

Lemma new_content_lines_meaningful (l : list string) :
  Forall (fun c => meaningful c = true) l ->
  new_content_lines_of l = flat_map (fun c => [added_line_comment; "    " +:+ c +:+ nl]) l.
Proof.
  induction 1 as [|c l Hc _ IH]; [reflexivity|].
  unfold new_content_lines_of in *. simpl. rewrite IH.
  unfold meaningful in Hc. apply andb_prop in Hc as [Hc _].
  apply andb_prop in Hc as [Hc _]. apply andb_prop in Hc as [Hc _].
  apply andb_prop in Hc as [Hc _]. apply andb_prop in Hc as [Hc _].
  apply andb_prop in Hc as [Hc1 Hc2]. rewrite Hc1, Hc2. reflexivity.
Qed.

(** Extra: in the common-section step the guard that skips blank and
    comment lines never fires: every new content line is written as the
    marker comment followed by the line indented by four spaces, two
    lines per new content line. *)
Theorem new_content_lines_two_per_line (source_content target_content : list string) :
  let nc := new_content_of (extract_content_lines source_content)
              (extract_content_lines target_content) in
  new_content_lines_of nc = flat_map (fun c => [added_line_comment; "    " +:+ c +:+ nl]) nc /\
  length (new_content_lines_of nc) = 2 * length nc.
Proof.
  intros nc.
  assert (Hnc : new_content_lines_of nc =
                flat_map (fun c => [added_line_comment; "    " +:+ c +:+ nl]) nc).
  { apply new_content_lines_meaningful. apply List.Forall_forall. intros c Hc.
    unfold nc, new_content_of, extract_content_lines in Hc.
    apply filter_In in Hc as [Hc _]. apply filter_In in Hc as [_ Hc]. exact Hc. }
  split; [exact Hnc|]. rewrite Hnc. clear Hnc.
  induction nc as [|c nc IH]; simpl; [reflexivity|]. rewrite IH. lia.
Qed.

Lemma string_app_assoc' (a b c : string) : (a +:+ b) +:+ c = a +:+ (b +:+ c).
Proof. induction a as [|x a IH]; [reflexivity|]. exact (f_equal (String x) IH). Qed.

Lemma generate_summary_shape (st : Migrator) :
  exists rest, generate_summary st =
    (st, inr ("=== BuildGradle Migration Summary ===" +:+ rest)).
Proof.
  unfold generate_summary, bind, gets, ret. cbn beta iota.
  destruct (migration_changes st) as [|c cs].
  - rewrite string_app_assoc'. eexists. reflexivity.
  - destruct (List.filter _ (c :: cs)) as [|a added];
      destruct (List.filter _ (c :: cs)) as [|u updated];
      destruct (validation_errors st);
      repeat rewrite string_app_assoc'; eexists; reflexivity.
Qed.

(** Extra: with no recorded change the summary is the fixed no-change
    text: the validation results are left out, even when validation
    failed. *)
Theorem generate_summary_no_changes (st : Migrator) :
  migration_changes st = [] ->
  generate_summary st =
    (st, inr ("=== BuildGradle Migration Summary ===" +:+ nl +:+ nl
              +:+ "No changes were made during migration." +:+ nl)).
Proof.
  intros H. unfold generate_summary, bind, gets, ret. cbn beta iota. rewrite H.
  rewrite !string_app_assoc'. reflexivity.
Qed.

Lemma parse_gradle_files_ok (src tgt : string) (fs : gmap string string)
    (stext ttext : string) :
  fs !! src = Some stext -> fs !! tgt = Some ttext ->
  parse_gradle_files (init_migrator src tgt fs) =
    (mkMigrator src tgt fs (sections_of (readlines stext)) (sections_of (readlines ttext))
       [] [], inr tt).
Proof.
  intros Hs Ht. unfold parse_gradle_files, try_except, bind, gets, modify,
    read_gradle_file, init_migrator. cbn [files build_source_gradle_path build_target_gradle_path].
  rewrite Hs. cbn beta iota. cbn [files build_target_gradle_path set_source_sections].
  rewrite Ht. reflexivity.
Qed.

(** Extra: when both files exist, [run_migration] succeeds: it returns a
    summary starting with the summary header, writes that summary to
    [build_gradle_migration_result.txt], leaves every other file except
    the target unchanged, keeps the target's old text inside its new
    text, and records at most one validation error. *)
Theorem run_migration_success (set_iter : list string -> list string)
    (Hperm : forall l, Permutation (set_iter l) l) (src tgt : string)
    (fs : gmap string string) (stext ttext : string)
    (Hs : fs !! src = Some stext) (Ht : fs !! tgt = Some ttext)
    (Hneq : tgt <> summary_path) :
  exists st' rest,
    run_migration set_iter (init_migrator src tgt fs) =
      (st', inr ("=== BuildGradle Migration Summary ===" +:+ rest)) /\
    files st' !! summary_path = Some ("=== BuildGradle Migration Summary ===" +:+ rest) /\
    (forall p, p <> tgt -> p <> summary_path -> files st' !! p = fs !! p) /\
    (exists ttext', files st' !! tgt = Some ttext' /\
       sublist (list_ascii_of_string ttext) (list_ascii_of_string ttext')) /\
    length (validation_errors st') <= 1.
Proof.
  set (st1 := mkMigrator src tgt fs (sections_of (readlines stext))
                (sections_of (readlines ttext)) [] []).
  assert (Hparse : parse_gradle_files (init_migrator src tgt fs) = (st1, inr tt))
    by exact (parse_gradle_files_ok src tgt fs stext ttext Hs Ht).
  assert (Htgt1 : is_Some (files st1 !! build_target_gradle_path st1))
    by (simpl; rewrite Ht; eexists; reflexivity).
  destruct (migrate_sections_log set_iter Hperm st1 Htgt1) as (st2 & Hrun2 & _).
  pose proof (migrate_sections_frame set_iter st1) as Hfr.
  rewrite Hrun2 in Hfr. simpl in Hfr.
  destruct Hfr as (_ & Hp2 & _ & _ & He2 & Hf2 & Hg2).
  simpl in Hp2, He2, Hf2, Hg2.
  destruct (Hg2 ttext Ht) as (ttext' & Ht' & Hsub).
  assert (Hv : exists st3, validate_gradle_structure set_iter st2 = (st3, inr true) \/
                 validate_gradle_structure set_iter st2 = (st3, inr false)) by
    (destruct (validate_frame_cases set_iter st2) as [H|[e H]]; eauto).
  assert (Hv3 : exists st3 b, validate_gradle_structure set_iter st2 = (st3, inr b) /\
                files st3 = files st2 /\ length (validation_errors st3) <= 1).
  { destruct (validate_frame_cases set_iter st2) as [H|[e H]].
    - exists st2, true. rewrite He2. simpl. auto.
    - exists (add_validation_error e st2), false. split; [exact H|].
      split; [reflexivity|]. simpl. rewrite He2. simpl. lia. }
  clear Hv. destruct Hv3 as (st3 & b & Hrun3 & Hf3 & He3).
  destruct (generate_summary_shape st3) as [rest Hsum].
  exists (set_files (<[summary_path := "=== BuildGradle Migration Summary ===" +:+ rest]>
                     (files st3)) st3), rest.
  unfold run_migration, try_except, bind. rewrite Hparse. cbn beta iota.
  rewrite Hrun2. cbn beta iota. rewrite Hrun3. cbn beta iota. rewrite Hsum.
  cbn beta iota. split; [reflexivity|].
  unfold set_files. cbn [files]. split; [apply lookup_insert_eq|].
  split; [|split].
  - intros p Hp1 Hp2'. rewrite lookup_insert_ne by congruence. rewrite Hf3.
    apply Hf2. simpl. exact Hp1.
  - exists ttext'. rewrite lookup_insert_ne by congruence. rewrite Hf3.
    split; [exact Ht'|exact Hsub].
  - exact He3.
Qed.

Lemma brace_scan_app (xs ys : list ascii) (n : Z) :
  brace_scan (xs ++ ys) n =
    match brace_scan xs n with Some m => brace_scan ys m | None => None end.
Proof.
  revert n. induction xs as [|c xs IH]; intros n; [reflexivity|]. simpl.
  destruct (Ascii.eqb c "{"%char); [apply IH|].
  destruct (Ascii.eqb c "}"%char); [|apply IH].
  destruct (n - 1 <? 0)%Z; [reflexivity|apply IH].
Qed.

Lemma brace_scan_shift (xs : list ascii) (n d m : Z) :
  (0 <= d)%Z -> brace_scan xs n = Some m -> brace_scan xs (n + d)%Z = Some (m + d)%Z.
Proof.
  intros Hd. revert n. induction xs as [|c xs IH]; intros n H; simpl in *.
  - injection H as <-. reflexivity.
  - destruct (Ascii.eqb c "{"%char).
    + replace (n + d + 1)%Z with (n + 1 + d)%Z by lia. apply IH, H.
    + destruct (Ascii.eqb c "}"%char); [|apply IH, H].
      destruct (n - 1 <? 0)%Z eqn:E; [discriminate|]. apply Z.ltb_ge in E.
      replace (n + d - 1 <? 0)%Z with false by (symmetry; apply Z.ltb_ge; lia).
      replace (n + d - 1)%Z with (n - 1 + d)%Z by lia. apply IH, H.
Qed.

Lemma brace_scan_nonneg (xs : list ascii) (n m : Z) :
  (0 <= n)%Z -> brace_scan xs n = Some m -> (0 <= m)%Z.
Proof.
  revert n. induction xs as [|c xs IH]; intros n Hn H; simpl in H.
  - injection H as <-. exact Hn.
  - destruct (Ascii.eqb c "{"%char); [apply (IH (n + 1)%Z ltac:(lia) H)|].
    destruct (Ascii.eqb c "}"%char); [|apply (IH _ Hn H)].
    destruct (n - 1 <? 0)%Z eqn:E; [discriminate|]. apply Z.ltb_ge in E.
    exact (IH _ E H).
Qed.

Lemma new_section_run (n : string) (st : Migrator) (s : GradleSection) (text : string) :
  dict_get n (source_sections st) = Some s ->
  files st !! build_target_gradle_path st = Some text ->
  exists c, fst (_migrate_new_section n st) =
    add_change c (set_files (<[build_target_gradle_path st :=
      writelines (slice_insert (new_section_insert_position (readlines text))
                    ([migration_comment_new] ++ content s ++ [nl]) (readlines text))]>
      (files st)) st).
Proof.
  intros Hs Ht.
  unfold _migrate_new_section, bind, gets, dict_lookup, read_gradle_file.
  cbn beta iota. rewrite Hs. unfold ret. cbn beta iota. rewrite Ht. cbn beta iota.
  eexists. reflexivity.
Qed.

(** Extra: adding a section whose own text has balanced braces to a
    target file that passes validation gives a target file that still
    passes validation, wherever the section is inserted. *)
Theorem add_balanced_section_keeps_validation (set_iter : list string -> list string)
    (st : Migrator) (n : string) (s : GradleSection) (text : string) :
  dict_get n (source_sections st) = Some s ->
  files st !! build_target_gradle_path st = Some text ->
  snd (validate_gradle_structure set_iter st) = inr true ->
  brace_scan (list_ascii_of_string (String.concat "" (content s))) 0%Z = Some 0%Z ->
  snd (validate_gradle_structure set_iter (fst (_migrate_new_section n st))) = inr true.
Proof.
  intros Hs Ht Hv Hbal.
  rewrite (validate_run set_iter st text Ht) in Hv.
  assert (H0 : brace_scan (list_ascii_of_string text) 0%Z = Some 0%Z).
  { revert Hv. destruct (brace_scan (list_ascii_of_string text) 0%Z) as [b|];
      cbn [snd]; [|discriminate].
    destruct (Z.eqb_spec b 0) as [->|]; cbn [snd]; [reflexivity|discriminate]. }
  clear Hv. destruct (new_section_run n st s text Hs Ht) as [c ->].
  set (P := readlines text). set (i := new_section_insert_position P).
  set (X := [migration_comment_new] ++ content s ++ [nl]).
  rewrite (validate_run set_iter _ (writelines (slice_insert i X P))).
  2:{ unfold add_change, set_files. simpl. apply lookup_insert_eq. }
  assert (Htext : list_ascii_of_string text =
    list_ascii_of_string (String.concat "" (firstn i P)) ++
    list_ascii_of_string (String.concat "" (skipn i P))).
  { rewrite <- (concat_readlines text) at 1. fold P.
    rewrite <- (firstn_skipn i P) at 1. rewrite !concat_chars, map_app, concat_app.
    reflexivity. }
  rewrite Htext, brace_scan_app in H0.
  destruct (brace_scan (list_ascii_of_string (String.concat "" (firstn i P))) 0%Z)
    as [a|] eqn:Ha; [|discriminate].
  pose proof (brace_scan_nonneg _ _ _ (Z.le_refl 0) Ha) as Ha0.
  assert (HX : brace_scan (list_ascii_of_string (String.concat "" X)) a = Some a).
  { unfold X. rewrite concat_chars, !map_app, !concat_app. cbn [map List.concat].
    rewrite !app_nil_r, <- concat_chars, !brace_scan_app.
    change (brace_scan (list_ascii_of_string migration_comment_new) a) with (Some a).
    pose proof (brace_scan_shift _ 0 a 0 Ha0 Hbal) as Hsh. rewrite Z.add_0_l in Hsh.
    cbv iota beta. rewrite brace_scan_app, Hsh. reflexivity. }
  unfold writelines, slice_insert.
  rewrite !concat_chars, !map_app, !concat_app, <- !concat_chars.
  rewrite brace_scan_app, Ha. cbv iota beta. rewrite brace_scan_app, HX, H0.
  reflexivity.
Qed.

Lemma lower_char_idem (c : ascii) : lower_char (lower_char c) = lower_char c.
Proof. destruct c as [[] [] [] [] [] [] [] []]; reflexivity. Qed.

Lemma lower_idem (s : string) : lower (lower s) = lower s.
Proof.
  unfold lower. rewrite list_ascii_of_string_of_list_ascii, map_map.
  f_equal. apply map_ext. apply lower_char_idem.
Qed.

(** Extra: the section type ignores letter case: a name and its
    lower-case form get the same type. *)
Theorem section_type_case_insensitive (section_name : string) :
  _determine_section_type (lower section_name) = _determine_section_type section_name.
Proof. unfold _determine_section_type at 1. rewrite lower_idem. reflexivity. Qed.

(* ------------------------------------------------------------------ *)
(** ** Instances of the further properties on small inputs *)

Lemma readlines_writelines_witness :
  readlines (writelines ["plugins {" +:+ nl; "}" +:+ nl]) = ["plugins {" +:+ nl; "}" +:+ nl].
Proof.
  apply readlines_writelines.
  repeat constructor; eexists; (split; [reflexivity|]);
    intros c Hc; vm_compute in Hc; intuition (subst; discriminate).
Defined.

Lemma identify_sections_opening_line_witness :
  exists m s,
    identify_sections (readlines c2_target) = Some m /\
    dict_get "plugins" m = Some s /\
    name s = "plugins" /\ opens_at (readlines c2_target) "plugins" s.
Proof.
  do 2 eexists. split; [reflexivity|]. split; [reflexivity|].
  eapply (identify_sections_opening_line (readlines c2_target)); reflexivity.
Defined.

Lemma validate_passes_iff_balanced_witness :
  snd (validate_gradle_structure id (parsed c2_source c2_target)) = inr true <->
  count "{" c2_target = count "}" c2_target /\
  forall p q, p +:+ q = c2_target -> count "}" p <= count "{" p.
Proof.
  apply (validate_passes_iff_balanced id (parsed c2_source c2_target) c2_target).
  vm_compute. reflexivity.
Defined.

Lemma validate_missing_target_witness :
  let st := init_migrator "src.gradle" "build.gradle" ∅ in
  snd (validate_gradle_structure id st) = inr false /\
  validation_errors (fst (validate_gradle_structure id st)) =
    ["Validation error: File not found: " +:+ "build.gradle"].
Proof.
  apply (validate_missing_target id (init_migrator "src.gradle" "build.gradle" ∅)).
  reflexivity.
Defined.

Lemma migrate_sections_change_log_witness :
  let st := parsed c2_source c2_target in
  exists st' adds upds,
    migrate_sections (@rev string) st = (st', inr tt) /\
    migration_changes st' = migration_changes st ++ adds ++ upds /\
    Permutation (map section_name adds)
      (source_only_names (source_sections st) (target_sections st)) /\
    Forall (fun c => change_type c = "ADD") adds /\
    Forall (fun c => change_type c = "UPDATE" /\
                     In (section_name c) (common_names (source_sections st) (target_sections st)) /\
                     update_detail_ok (source_sections st) (target_sections st) c) upds.
Proof.
  apply (migrate_sections_change_log (@rev string)
           (fun l => Permutation_sym (Permutation_rev l))).
  vm_compute. eexists; reflexivity.
Defined.

Lemma generate_summary_no_changes_witness :
  let st := add_validation_error "Unbalanced braces detected"
              (init_migrator "src.gradle" "build.gradle" ∅) in
  validation_errors st <> [] /\
  generate_summary st =
    (st, inr ("=== BuildGradle Migration Summary ===" +:+ nl +:+ nl
              +:+ "No changes were made during migration." +:+ nl)).
Proof.
  split; [discriminate|]. apply generate_summary_no_changes. reflexivity.
Defined.

Lemma run_migration_success_witness :
  exists st' rest,
    run_migration (@rev string)
      (init_migrator "src.gradle" "build.gradle" (two_files c2_source c2_target)) =
      (st', inr ("=== BuildGradle Migration Summary ===" +:+ rest)) /\
    files st' !! summary_path = Some ("=== BuildGradle Migration Summary ===" +:+ rest) /\
    (forall p, p <> "build.gradle" -> p <> summary_path ->
       files st' !! p = two_files c2_source c2_target !! p) /\
    (exists ttext', files st' !! "build.gradle" = Some ttext' /\
       sublist (list_ascii_of_string c2_target) (list_ascii_of_string ttext')) /\
    length (validation_errors st') <= 1.
Proof.
  apply (run_migration_success (@rev string)
           (fun l => Permutation_sym (Permutation_rev l))
           "src.gradle" "build.gradle" (two_files c2_source c2_target) c2_source c2_target).
  - vm_compute. reflexivity.
  - vm_compute. reflexivity.
  - apply String.eqb_neq. reflexivity.
Defined.

Lemma add_balanced_section_keeps_validation_witness :
  snd (validate_gradle_structure id
         (fst (_migrate_new_section "ext" (parsed c2_source c2_target)))) = inr true.
Proof.
  apply (add_balanced_section_keeps_validation id (parsed c2_source c2_target) "ext"
           {| name := "ext";
              content := ["ext {" +:+ nl; "  springVersion = '6.1'" +:+ nl; "}" +:+ nl];
              start_line := 3; end_line := 5; section_type := CUSTOM;
              indentation := "" |} c2_target);
    vm_compute; reflexivity.
Defined.
